(** * DenseNet graph assembly (keras_contrib/applications/densenet.py)

    A shallow embedding of the module's own logic: argument validation,
    the derived integers (layers per block, filter counts, compression,
    transposed-convolution output shapes) and the order in which layer
    objects are wired together.  Layers of the framework are symbolic
    constructors of a tensor graph; Python exceptions are values of an
    error type; floats are IEEE binary64 (the primitive floats of Rocq). *)

From Stdlib Require Import ZArith List String Bool Lia Floats.
Import ListNotations.
Open Scope string_scope.
Open Scope list_scope.
Open Scope Z_scope.
Set Warnings "-register-all".

(** ** Python values, exceptions and the built-ins the module uses *)

Module Py.

Inductive exn : Type :=
| ValueError (msg : string)
| AssertionError (msg : string)
| NameError (name : string)
| TypeError (msg : string)
| OverflowError (msg : string)
| IndexError (msg : string)
| ZeroDivisionError (msg : string).

Inductive result (A : Type) : Type :=
| Ok (a : A)
| Raise (e : exn).
Arguments Ok {A} a.
Arguments Raise {A} e.

Definition bind {A B} (m : result A) (k : A -> result B) : result B :=
  match m with
  | Ok a => k a
  | Raise e => Raise e
  end.

Definition is_ok {A} (m : result A) : bool :=
  match m with Ok _ => true | Raise _ => false end.

(** [assert c, msg] with assertions enabled (no [-O]). *)
Definition assert (c : bool) (msg : string) : result unit :=
  if c then Ok tt else Raise (AssertionError msg).

(** [float(n)] for an [int]: rounded to nearest even, [OverflowError]
    when the integer is beyond the range of a double. *)
Definition float_of_int (n : Z) : result float :=
  match binary_normalize prec emax n 0 false with
  | S754_infinity _ => Raise (OverflowError "int too large to convert to float")
  | sf => Ok (SF2Prim sf)
  end.

(** [int(f)]: truncation towards zero; NaN and the infinities raise. *)
Definition int_of_float (f : float) : result Z :=
  match Prim2SF f with
  | S754_zero _ => Ok 0
  | S754_nan => Raise (ValueError "cannot convert float NaN to integer")
  | S754_infinity _ =>
      Raise (OverflowError "cannot convert float infinity to integer")
  | S754_finite s m e =>
      let a := if 0 <=? e then Z.shiftl (Z.pos m) e
               else Z.shiftr (Z.pos m) (- e) in
      Ok (if s then - a else a)
  end.

(** [n * c] for an [int] n and a [float] c. *)
Definition mul_int_float (n : Z) (c : float) : result float :=
  bind (float_of_int n) (fun f => Ok (PrimFloat.mul f c)).

(** [a / b] on two [int]s under [from __future__ import division]:
    the correctly rounded quotient. *)
Definition truediv (a b : Z) : result float :=
  if b =? 0 then Raise (ZeroDivisionError "division by zero")
  else
    let s := xorb (a <? 0) (b <? 0) in
    if a =? 0 then Ok (SF2Prim (S754_zero s))
    else
      let '(q, e, l) := SFdiv_core_binary prec emax (Z.abs a) 0 (Z.abs b) 0 in
      match binary_round_aux prec emax s q e l with
      | S754_infinity _ =>
          Raise (OverflowError "integer division result too large for a float")
      | sf => Ok (SF2Prim sf)
      end.

(** Truthiness of an optional float ([None], [0.0] are false). *)
Definition truthy (d : option float) : bool :=
  match d with
  | None => false
  | Some f => negb (PrimFloat.eqb f 0)
  end.

(** [range(n)]: the number of iterations of [for _ in range(n)]. *)
Definition range_len (n : Z) : nat := Z.to_nat n.

(** [l[i]] with Python's negative indices. *)
Definition index {A} (l : list A) (i : Z) : result A :=
  let len := Z.of_nat (List.length l) in
  let j := if i <? 0 then i + len else i in
  if (j <? 0) || (len <=? j) then Raise (IndexError "list index out of range")
  else match nth_error l (Z.to_nat j) with
       | Some a => Ok a
       | None => Raise (IndexError "list index out of range")
       end.

End Py.

Import Py.

Notation "x <- m ;; k" := (Py.bind m (fun x => k))
  (at level 61, m at next level, right associativity).
Notation "' pat <- m ;; k" := (Py.bind m (fun x => match x with pat => k end))
  (at level 61, pat pattern, m at next level, right associativity).

(** ** The framework: configuration and symbolic layers *)

Inductive data_format : Type := channels_first | channels_last.

Inductive backend_name : Type := tensorflow | theano.

(** [dilation_rate]: an integer or a pair of integers. *)
Inductive dilation : Type :=
| DilInt (n : Z)
| DilPair (a b : Z).

(** [x is 1] on a dilation rate (small integers are shared objects). *)
Definition dilation_is_1 (d : dilation) : bool :=
  match d with
  | DilInt n => n =? 1
  | DilPair _ _ => false
  end.

Definition shape3 : Type := (Z * Z * Z)%type.

Inductive layer : Type :=
| BatchNormalization (mode : option Z) (axis : Z) (weight_decay : float)
| Activation (fn : string)
| Conv2D (filters : Z) (kernel_size : Z * Z) (kernel_initializer : option string)
         (activation : option string) (name : option string)
         (dilation_rate : dilation) (weight_decay : float)
| Dropout (rate : float)
| AveragePooling2D (pool strides : Z * Z)
| GlobalAveragePooling2D
| Dense (units : Z) (activation : string) (weight_decay : float)
| Reshape (dims : list Z)
| UpSampling2D
| SubPixelUpscaling (scale_factor : Z)
| Conv2DTranspose (filters : Z) (kernel_size : Z * Z)
                  (output_shape : list (option Z)).

Inductive tensor : Type :=
| Input (shape : shape3)
| InputOf (tensor_id : string) (shape : shape3)
| KerasTensor (tensor_id : string)
| Apply (l : layer) (ip : tensor)
| Merge (xs : list tensor) (concat_axis : Z).

Definition axis_of (fmt : data_format) : Z :=
  match fmt with channels_first => 1 | channels_last => -1 end.

Definition dropout (dropout_rate : option float) (x : tensor) : tensor :=
  match dropout_rate with
  | Some r => if truthy dropout_rate then Apply (Dropout r) x else x
  | None => x
  end.

(** [s == lit] on an optional string ([None] equals no string). *)
Definition str_is (s : option string) (lit : string) : bool :=
  match s with
  | Some v => String.eqb v lit
  | None => false
  end.

(** [int(nb_filter * compression)] *)
Definition compress (nb_filter : Z) (compression : float) : result Z :=
  p <- mul_int_float nb_filter compression ;;
  int_of_float p.

(** ** The four graph-building helpers *)

Section Helpers.

(** [K.image_data_format()] *)
Variable image_data_format : data_format.

Definition __conv_block (ip : tensor) (nb_filter : Z) (bottleneck : bool)
           (dropout_rate : option float) (weight_decay : float) : tensor :=
  let concat_axis := axis_of image_data_format in
  let x := Apply (BatchNormalization None concat_axis weight_decay) ip in
  let x := Apply (Activation "relu") x in
  let x :=
    if bottleneck then
      let inter_channel := nb_filter * 4 in
      let x := Apply (Conv2D inter_channel (1, 1) (Some "he_uniform") None None
                             (DilInt 1) weight_decay) x in
      let x := dropout dropout_rate x in
      let x := Apply (BatchNormalization (Some 0) concat_axis weight_decay) x in
      Apply (Activation "relu") x
    else x in
  let x := Apply (Conv2D nb_filter (3, 3) (Some "he_uniform") None None
                         (DilInt 1) weight_decay) x in
  dropout dropout_rate x.

(** The names bound in the module: [AveragePooling2D] is imported,
    [MaxPooling2D] is not, so evaluating it raises [NameError]. *)
Definition __transition_block (ip : tensor) (nb_filter : Z) (compression : float)
           (dropout_rate : option float) (weight_decay : float)
           (dilation_rate : dilation) (pooling : option string)
           (kernel_size : Z * Z) : result tensor :=
  let concat_axis := axis_of image_data_format in
  let x := Apply (BatchNormalization None concat_axis weight_decay) ip in
  let x := Apply (Activation "relu") x in
  filters <- compress nb_filter compression ;;
  let x := Apply (Conv2D filters kernel_size (Some "he_uniform") None None
                         dilation_rate weight_decay) x in
  let x := dropout dropout_rate x in
  if str_is pooling "avg" then Ok (Apply (AveragePooling2D (2, 2) (2, 2)) x)
  else if str_is pooling "max" then Raise (NameError "MaxPooling2D")
  else Ok x.

(** What a conv block of a dense block is fed once the outputs [prev] of
    the conv blocks before it exist: the block input itself for the
    first one, then the concatenation built by [merge]. *)
Definition dense_input (x : tensor) (prev : list tensor) : tensor :=
  match prev with
  | [] => x
  | _ :: _ => Merge (x :: prev) (axis_of image_data_format)
  end.

(** Every output in [outs] is the conv block applied to the
    concatenation of the block input with the outputs before it. *)
Definition densely_connected (x : tensor) (growth_rate : Z) (bottleneck : bool)
           (dropout_rate : option float) (weight_decay : float)
           (outs : list tensor) : Prop :=
  forall i, (i < List.length outs)%nat ->
    nth_error outs i
    = Some (__conv_block (dense_input x (firstn i outs)) growth_rate bottleneck
                         dropout_rate weight_decay).

(** State of the loop of [__dense_block]: the running tensor, the list
    [x_list] and the running filter count. *)
Record dense_state : Type := mk_dense_state {
  ds_x : tensor;
  ds_x_list : list tensor;
  ds_nb_filter : Z
}.

Definition dense_step (growth_rate : Z) (bottleneck : bool)
           (dropout_rate : option float) (weight_decay : float)
           (grow_nb_filters : bool) (st : dense_state) : dense_state :=
  let concat_axis := axis_of image_data_format in
  let x := __conv_block (ds_x st) growth_rate bottleneck dropout_rate weight_decay in
  let x_list := ds_x_list st ++ [x] in
  let x := Merge x_list concat_axis in
  mk_dense_state x x_list
    (if grow_nb_filters then ds_nb_filter st + growth_rate else ds_nb_filter st).

Fixpoint dense_loop (n : nat) (growth_rate : Z) (bottleneck : bool)
         (dropout_rate : option float) (weight_decay : float)
         (grow_nb_filters : bool) (st : dense_state) : dense_state :=
  match n with
  | O => st
  | S n' =>
      dense_loop n' growth_rate bottleneck dropout_rate weight_decay
                 grow_nb_filters
                 (dense_step growth_rate bottleneck dropout_rate weight_decay
                             grow_nb_filters st)
  end.

(** The result is [(x, nb_filter)], with [x_list] added when
    [return_concat_list] is set. *)
Definition __dense_block (x : tensor) (nb_layers nb_filter growth_rate : Z)
           (bottleneck : bool) (dropout_rate : option float)
           (weight_decay : float) (grow_nb_filters return_concat_list : bool)
  : tensor * Z * option (list tensor) :=
  let st := dense_loop (range_len nb_layers) growth_rate bottleneck dropout_rate
                       weight_decay grow_nb_filters
                       (mk_dense_state x [x] nb_filter) in
  (ds_x st, ds_nb_filter st,
   if return_concat_list then Some (ds_x_list st) else None).

Definition __transition_up_block (ip : tensor) (nb_filters : Z) (type : string)
           (output_shape : list (option Z)) (weight_decay : float) : tensor :=
  if String.eqb type "upsampling" then Apply UpSampling2D ip
  else if String.eqb type "subpixel" then
    let x := Apply (Conv2D nb_filters (3, 3) (Some "he_uniform") (Some "relu") None
                           (DilInt 1) weight_decay) ip in
    let x := Apply (SubPixelUpscaling 2) x in
    Apply (Conv2D nb_filters (3, 3) (Some "he_uniform") (Some "relu") None
                  (DilInt 1) weight_decay) x
  else Apply (Conv2DTranspose nb_filters (3, 3) output_shape) ip.

End Helpers.

(** ** Hyperparameters *)

(** [nb_layers_per_block]: an integer, a list or a tuple of integers. *)
Inductive layers_arg : Type :=
| LInt (n : Z)
| LList (l : list Z)
| LTuple (l : list Z).

(** [type(v) is list or type(v) is tuple] *)
Definition as_sequence (v : layers_arg) : option (list Z) :=
  match v with
  | LInt _ => None
  | LList l | LTuple l => Some l
  end.

(** [v is not -1] *)
Definition is_not_minus1 (v : layers_arg) : bool :=
  match v with
  | LInt n => negb (n =? -1)
  | _ => true
  end.

(** [input_tensor]: a Keras tensor, or a backend tensor to be wrapped. *)
Inductive input_arg : Type :=
| KerasIn (t : tensor)
| RawIn (tensor_id : string).

Inductive model_inputs : Type :=
| SourceInputs (of_tensor : input_arg)
| ImgInput (t : tensor).

Record model : Type := Model {
  inputs : model_inputs;
  outputs : tensor;
  name : string
}.

(** What the framework is asked to do with weight files. *)
Inductive event : Type :=
| GetFile (fname origin cache_subdir : string)
| LoadWeights (weights_path : string)
| Warn (msg : string)
| ConvertAllKernels.

(** The framework as the module sees it: the configured data format and
    backend, and [_obtain_input_shape], which validates a shape or raises. *)
Record keras : Type := {
  image_data_format : data_format;
  backend : backend_name;
  _obtain_input_shape :
    option shape3 -> forall (default_size min_size : Z), data_format ->
    forall (include_top : bool), result shape3
}.

Definition TH_WEIGHTS_PATH : string :=
  "https://github.com/titu1994/DenseNet/releases/download/v2.0/DenseNet-40-12-Theano-Backend-TH-dim-ordering.h5".
Definition TF_WEIGHTS_PATH : string :=
  "https://github.com/titu1994/DenseNet/releases/download/v2.0/DenseNet-40-12-Tensorflow-Backend-TF-dim-ordering.h5".
Definition TH_WEIGHTS_PATH_NO_TOP : string :=
  "https://github.com/titu1994/DenseNet/releases/download/v2.0/DenseNet-40-12-Theano-Backend-TH-dim-ordering-no-top.h5".
Definition TF_WEIGHTS_PATH_NO_TOP : string :=
  "https://github.com/titu1994/DenseNet/releases/download/v2.0/DenseNet-40-12-Tensorflow-Backend-TF-dim-ordering-no-top.h5".

(** The check on [reduction] shared by both assemblers. *)
Definition check_reduction (reduction : float) : result unit :=
  if negb (PrimFloat.eqb reduction 0) then
    assert (PrimFloat.leb reduction 1 && PrimFloat.ltb 0 reduction)
           "reduction value must lie between 0.0 and 1.0"
  else Ok tt.

(** [int((depth - 4) / 3)] *)
Definition layer_count (d : Z) : result Z :=
  q <- truediv (d - 4) 3 ;;
  int_of_float q.

(** ** The classification network *)

Section DenseNet.

Variable K : keras.

(** Lines 565-568: the checks on [depth]. *)
Definition check_depth (depth : option Z) (nb_layers_per_block : layers_arg)
  : result unit :=
  match depth with
  | Some d => assert ((d - 4) mod 3 =? 0) "Depth must be nb_dense_block * N + 4"
  | None =>
      assert (is_not_minus1 nb_layers_per_block)
             "Depth cannot be None when nb_layers_per_block is -1. Specify either parameter."
  end.

(** Lines 573-590: the layers of each dense block, [(nb_layers,
    final_nb_layer)]. *)
Definition dense_net_layers (depth : option Z) (nb_dense_block : Z)
           (nb_layers_per_block : layers_arg) (bottleneck : bool)
  : result (list Z * Z) :=
  '(nb_layers, final_nb_layer) <-
    match as_sequence nb_layers_per_block with
    | Some nb_layers =>
        _ <- assert (Z.of_nat (List.length nb_layers) =? nb_dense_block + 1)
                    "If list, nb_layer is used as provided. Note that list size must be (nb_dense_block + 1)" ;;
        final_nb_layer <- index nb_layers (-1) ;;
        Ok (removelast nb_layers, final_nb_layer)
    | None =>
        match nb_layers_per_block with
        | LInt (-1) =>
            match depth with
            | Some d =>
                count <- layer_count d ;;
                Ok (repeat count (range_len nb_dense_block), count)
            | None =>
                Raise (TypeError "unsupported operand type(s) for -: NoneType and int")
            end
        | LInt n => Ok (repeat n (Z.to_nat nb_dense_block), n)
        | _ => Raise (TypeError "unreachable")
        end
    end ;;
  Ok (if bottleneck then map (fun layer => layer / 2) nb_layers else nb_layers,
      final_nb_layer).

(** One pass of the loop of lines 605-617. *)
Definition dense_net_step (nb_layers : list Z) (growth_rate : Z)
           (bottleneck : bool) (compression : float)
           (dropout_rate : option float) (weight_decay : float)
           (transition_dilation_rate : dilation)
           (transition_pooling : option string)
           (transition_kernel_size : Z * Z)
           (block_idx : Z) (st : tensor * Z) : result (tensor * Z) :=
  let '(x, nb_filter) := st in
  n <- index nb_layers block_idx ;;
  let '(x, nb_filter, _) :=
    __dense_block (image_data_format K) x n nb_filter growth_rate bottleneck
                  dropout_rate weight_decay true false in
  x <- __transition_block (image_data_format K) x nb_filter compression
                          dropout_rate weight_decay transition_dilation_rate
                          transition_pooling transition_kernel_size ;;
  nb_filter <- compress nb_filter compression ;;
  Ok (x, nb_filter).

(** [for block_idx in range(...)] from [block_idx] on, [n] passes. *)
Fixpoint for_range {St : Type} (n : nat) (block_idx : Z)
         (body : Z -> St -> result St) (st : St) : result St :=
  match n with
  | O => Ok st
  | S n' =>
      st' <- body block_idx st ;;
      for_range n' (block_idx + 1) body st'
  end.

(** Lines 619-644: the last dense block and the top of the network.
    [top is 'classification'] compares with an interned literal and is
    taken as equality of the strings. *)
Definition dense_net_top (nb_classes : Z) (include_top : bool)
           (top : option string) (growth_rate : Z) (bottleneck : bool)
           (dropout_rate : option float) (weight_decay : float)
           (input_shape : shape3) (activation : string)
           (final_nb_layer : Z) (st : tensor * Z) : result tensor :=
  let concat_axis := axis_of (image_data_format K) in
  let '(x, nb_filter) := st in
  let '(x, nb_filter, _) :=
    __dense_block (image_data_format K) x final_nb_layer nb_filter growth_rate
                  bottleneck dropout_rate weight_decay true false in
  let x := Apply (BatchNormalization None concat_axis weight_decay) x in
  let x := Apply (Activation "relu") x in
  if include_top && str_is top "classification" then
    let x := Apply GlobalAveragePooling2D x in
    Ok (Apply (Dense nb_classes activation weight_decay) x)
  else if include_top && str_is top "segmentation" then
    let x := Apply (Conv2D nb_classes (1, 1) None (Some "linear") None
                           (DilInt 1) weight_decay) x in
    let '(row, col) :=
      match image_data_format K, input_shape with
      | channels_first, (channel, row, col) => (row, col)
      | channels_last, (row, col, channel) => (row, col)
      end in
    let x := Apply (Reshape [row * col; nb_classes]) x in
    let x := Apply (Activation activation) x in
    Ok (Apply (Reshape [row; col; nb_classes]) x)
  else Ok x.

Definition __create_dense_net (nb_classes : Z) (img_input : tensor)
           (include_top : bool) (top : option string) (depth : option Z)
           (nb_dense_block growth_rate nb_filter : Z)
           (nb_layers_per_block : layers_arg) (bottleneck : bool)
           (reduction : float) (dropout_rate : option float)
           (weight_decay : float) (transition_dilation_rate : dilation)
           (transition_pooling : option string)
           (transition_kernel_size : Z * Z) (input_shape : shape3)
           (activation : string) : result tensor :=
  _ <- check_depth depth nb_layers_per_block ;;
  _ <- check_reduction reduction ;;
  '(nb_layers, final_nb_layer) <-
    dense_net_layers depth nb_dense_block nb_layers_per_block bottleneck ;;
  let nb_filter := if nb_filter <=? 0 then 2 * growth_rate else nb_filter in
  let compression := PrimFloat.sub 1 reduction in
  let x := Apply (Conv2D nb_filter (3, 3) (Some "he_uniform") None
                         (Some "initial_conv2D") (DilInt 1) weight_decay)
                 img_input in
  st <- for_range (range_len (nb_dense_block - 1)) 0
                  (dense_net_step nb_layers growth_rate bottleneck compression
                                  dropout_rate weight_decay
                                  transition_dilation_rate transition_pooling
                                  transition_kernel_size)
                  (x, nb_filter) ;;
  dense_net_top nb_classes include_top top growth_rate bottleneck dropout_rate
                weight_decay input_shape activation final_nb_layer st.

Record densenet_args : Type := {
  dn_input_shape : option shape3;
  dn_depth : option Z;
  dn_nb_dense_block : Z;
  dn_growth_rate : Z;
  dn_nb_filter : Z;
  dn_nb_layers_per_block : layers_arg;
  dn_bottleneck : bool;
  dn_reduction : float;
  dn_dropout_rate : option float;
  dn_weight_decay : float;
  dn_include_top : bool;
  dn_top : option string;
  dn_weights : option string;
  dn_input_tensor : option input_arg;
  dn_classes : Z;
  dn_transition_dilation_rate : dilation;
  dn_transition_pooling : option string;
  dn_transition_kernel_size : Z * Z;
  dn_activation : string
}.

(** Lines 125-137. *)
Definition DenseNet_validate (a : densenet_args) : result unit :=
  if negb (str_is (dn_weights a) "cifar10"
           || match dn_weights a with None => true | Some _ => false end) then
    Raise (ValueError "The weights argument should be either None (random initialization) or cifar10 (pre-training on CIFAR-10).")
  else if str_is (dn_weights a) "cifar10" && dn_include_top a
          && negb (dn_classes a =? 10) then
    Raise (ValueError "If using weights as CIFAR 10 with include_top as true, classes should be 10")
  else if negb (String.eqb (dn_activation a) "softmax"
                || String.eqb (dn_activation a) "sigmoid") then
    Raise (ValueError "activation must be one of softmax or sigmoid")
  else if String.eqb (dn_activation a) "sigmoid" && negb (dn_classes a =? 1) then
    Raise (ValueError "sigmoid activation can only be used when classes = 1")
  else Ok tt.

(** Lines 148-154, shared with the fully convolutional network. *)
Definition make_img_input (input_tensor : option input_arg)
           (input_shape : shape3) : tensor :=
  match input_tensor with
  | None => Input input_shape
  | Some (RawIn i) => InputOf i input_shape
  | Some (KerasIn t) => t
  end.

Definition make_inputs (input_tensor : option input_arg) (img_input : tensor)
  : model_inputs :=
  match input_tensor with
  | Some t => SourceInputs t
  | None => ImgInput img_input
  end.

(** Lines 125-169: everything up to [Model(inputs, x)]. *)
Definition DenseNet_build (a : densenet_args) : result model :=
  _ <- DenseNet_validate a ;;
  input_shape <-
    _obtain_input_shape K (dn_input_shape a) 32 8 (image_data_format K)
      (dn_include_top a && dilation_is_1 (dn_transition_dilation_rate a)) ;;
  let img_input := make_img_input (dn_input_tensor a) input_shape in
  x <- __create_dense_net (dn_classes a) img_input (dn_include_top a) (dn_top a)
         (dn_depth a) (dn_nb_dense_block a) (dn_growth_rate a) (dn_nb_filter a)
         (dn_nb_layers_per_block a) (dn_bottleneck a) (dn_reduction a)
         (dn_dropout_rate a) (dn_weight_decay a)
         (dn_transition_dilation_rate a) (dn_transition_pooling a)
         (dn_transition_kernel_size a) input_shape (dn_activation a) ;;
  Ok (Model (make_inputs (dn_input_tensor a) img_input) x "densenet").

(** The condition of line 173-174 under which weights exist. *)
Definition default_parameters_match (a : densenet_args) : bool :=
  match dn_depth a with Some d => d =? 40 | None => false end
  && (dn_nb_dense_block a =? 3) && (dn_growth_rate a =? 12)
  && (dn_nb_filter a =? 16) && negb (dn_bottleneck a)
  && PrimFloat.eqb (dn_reduction a) 0
  && match dn_dropout_rate a with
     | Some r => PrimFloat.eqb r 0
     | None => false
     end
  && PrimFloat.eqb (dn_weight_decay a) 0x1.a36e2eb1c432dp-14.

(** Lines 172-212: what is fetched and loaded once the model exists. *)
Definition DenseNet_load_weights (a : densenet_args) : list event :=
  if str_is (dn_weights a) "cifar10" then
    if default_parameters_match a then
      match image_data_format K with
      | channels_first =>
          let fname :=
            if dn_include_top a then "densenet_40_12_th_dim_ordering_th_kernels.h5"
            else "densenet_40_12_th_dim_ordering_th_kernels_no_top.h5" in
          let origin :=
            if dn_include_top a then TH_WEIGHTS_PATH else TH_WEIGHTS_PATH_NO_TOP in
          [GetFile fname origin "models"; LoadWeights fname]
          ++ match backend K with
             | tensorflow =>
                 [Warn "You are using the TensorFlow backend, yet you are using the Theano image dimension ordering convention";
                  ConvertAllKernels]
             | theano => []
             end
      | channels_last =>
          let fname :=
            if dn_include_top a then "densenet_40_12_tf_dim_ordering_tf_kernels.h5"
            else "densenet_40_12_tf_dim_ordering_tf_kernels_no_top.h5" in
          let origin :=
            if dn_include_top a then TF_WEIGHTS_PATH else TF_WEIGHTS_PATH_NO_TOP in
          [GetFile fname origin "models"; LoadWeights fname]
          ++ match backend K with
             | theano => [ConvertAllKernels]
             | tensorflow => []
             end
      end
    else []
  else [].

(** The whole call: the events it causes and what it returns or raises. *)
Definition DenseNet (a : densenet_args) : list event * result model :=
  match DenseNet_build a with
  | Ok m => (DenseNet_load_weights a, Ok m)
  | Raise e => ([], Raise e)
  end.

End DenseNet.

(** ** Calls with positional arguments *)

(** The values that travel through the call of [__create_fcn_dense_net]. *)
Inductive pyval : Type :=
| VNone
| VBool (b : bool)
| VInt (n : Z)
| VFloat (f : float)
| VStr (s : string)
| VPair (p : Z * Z)
| VShape (s : shape3)
| VLayers (l : layers_arg)
| VTensor (t : tensor).

(** Binding positional arguments to a parameter list: parameters left
    over take their defaults, one without a default is a [TypeError], and
    so are more arguments than parameters. *)
Fixpoint bind_positional (params : list (string * option pyval))
         (args : list pyval) : result (list pyval) :=
  match params, args with
  | [], [] => Ok []
  | [], _ :: _ => Raise (TypeError "too many positional arguments")
  | (_, Some d) :: params', [] =>
      rest <- bind_positional params' [] ;;
      Ok (d :: rest)
  | (_, None) :: _, [] => Raise (TypeError "missing required positional argument")
  | _ :: params', v :: args' =>
      rest <- bind_positional params' args' ;;
      Ok (v :: rest)
  end.

Definition bad_type {A} : result A := Raise (TypeError "unsupported operand type").

Definition as_int (v : pyval) : result Z :=
  match v with VInt n => Ok n | _ => bad_type end.
Definition as_bool (v : pyval) : result bool :=
  match v with VBool b => Ok b | _ => bad_type end.
Definition as_float (v : pyval) : result float :=
  match v with VFloat f => Ok f | _ => bad_type end.
Definition as_opt_float (v : pyval) : result (option float) :=
  match v with VFloat f => Ok (Some f) | VNone => Ok None | _ => bad_type end.
Definition as_opt_int (v : pyval) : result (option Z) :=
  match v with VInt n => Ok (Some n) | VNone => Ok None | _ => bad_type end.
Definition as_str (v : pyval) : result string :=
  match v with VStr s => Ok s | _ => bad_type end.
Definition as_layers (v : pyval) : result layers_arg :=
  match v with VLayers l => Ok l | VInt n => Ok (LInt n) | _ => bad_type end.
Definition as_shape (v : pyval) : result shape3 :=
  match v with VShape s => Ok s | _ => bad_type end.
Definition as_tensor (v : pyval) : result tensor :=
  match v with VTensor t => Ok t | _ => bad_type end.

(** ** The fully convolutional network *)

Section DenseNetFCN.

Variable K : keras.

(** [l[i] = v] and [l[i] *= 2] on the list [out_shape]. *)
Fixpoint list_update {A} (l : list A) (i : nat) (f : A -> A) : list A :=
  match l, i with
  | [], _ => []
  | a :: l', O => f a :: l'
  | a :: l', S i' => a :: list_update l' i' f
  end.

Definition times2 (v : option Z) : option Z :=
  match v with Some n => Some (n * 2) | None => None end.

(** Lines 713-724: the layers of the down path, the bottleneck and the
    up path, [(nb_layers, bottleneck_nb_layers)]. *)
Definition fcn_layers (nb_dense_block : Z) (nb_layers_per_block : layers_arg)
  : result (list Z * Z) :=
  match as_sequence nb_layers_per_block with
  | Some nb_layers =>
      _ <- assert (Z.of_nat (List.length nb_layers) =? nb_dense_block + 1)
                  "If list, nb_layer is used as provided. Note that list size must be (nb_dense_block + 1)" ;;
      bottleneck_nb_layers <- index nb_layers (-1) ;;
      let rev_layers := rev nb_layers in
      Ok (nb_layers ++ tl rev_layers, bottleneck_nb_layers)
  | None =>
      match nb_layers_per_block with
      | LInt n => Ok (repeat n (Z.to_nat (2 * nb_dense_block + 1)), n)
      | _ => Raise (TypeError "unreachable")
      end
  end.

(** State of the down loop (lines 738-750). *)
Record down_state : Type := mk_down_state {
  dw_x : tensor;
  dw_nb_filter : Z;
  dw_skip_list : list tensor
}.

Definition fcn_down_step (nb_layers : list Z) (growth_rate : Z)
           (compression : float) (dropout_rate : option float)
           (weight_decay : float) (block_idx : Z) (st : down_state)
  : result down_state :=
  n <- index nb_layers block_idx ;;
  let '(x, nb_filter, _) :=
    __dense_block (image_data_format K) (dw_x st) n (dw_nb_filter st)
                  growth_rate false dropout_rate weight_decay true false in
  let skip_list := dw_skip_list st ++ [x] in
  x <- __transition_block (image_data_format K) x nb_filter compression
                          dropout_rate weight_decay (DilInt 1) (Some "avg")
                          (1, 1) ;;
  nb_filter <- compress nb_filter compression ;;
  Ok (mk_down_state x nb_filter skip_list).

(** State of the up loop (lines 767-802): [out_shape] is the list that
    the loop updates in place.  The list object is the one handed to
    every up-block; the state holds its value at each point of the loop,
    which is what a block sees when it is called. *)
Record up_state : Type := mk_up_state {
  up_x : tensor;
  up_nb_filter : Z;
  up_concat_list : list tensor;
  up_out_shape : list (option Z)
}.

(** The positions of the channel and the two spatial entries of
    [out_shape]. *)
Definition channel_slot : nat :=
  match image_data_format K with channels_first => 1 | channels_last => 3 end%nat.
Definition spatial_slots : nat * nat :=
  match image_data_format K with
  | channels_first => (2, 3)
  | channels_last => (1, 2)
  end%nat.

(** [out_shape] as line 782-784 hands it to [__transition_up_block]. *)
Definition up_block_out_shape (out_shape : list (option Z)) (n_filters_keep : Z)
  : list (option Z) :=
  list_update out_shape channel_slot (fun _ => Some n_filters_keep).

Definition fcn_up_step (nb_layers : list Z) (nb_dense_block growth_rate : Z)
           (dropout_rate : option float) (weight_decay : float)
           (upsampling_type : string) (skip_list : list tensor)
           (block_idx : Z) (st : up_state) : result up_state :=
  let concat_axis := axis_of (image_data_format K) in
  n <- index nb_layers (nb_dense_block + block_idx) ;;
  let n_filters_keep := growth_rate * n in
  let out_shape := up_block_out_shape (up_out_shape st) n_filters_keep in
  let l := Merge (tl (up_concat_list st)) concat_axis in
  let t := __transition_up_block l n_filters_keep upsampling_type out_shape
                                 0x1.a36e2eb1c432dp-14 in
  skip <- index skip_list block_idx ;;
  let x := Merge [t; skip] concat_axis in
  let out_shape := list_update out_shape (fst spatial_slots) times2 in
  let out_shape := list_update out_shape (snd spatial_slots) times2 in
  n' <- index nb_layers (nb_dense_block + block_idx + 1) ;;
  let '(_, nb_filter, concat_list) :=
    __dense_block (image_data_format K) x n' growth_rate growth_rate false
                  dropout_rate weight_decay false true in
  Ok (mk_up_state x nb_filter
                  (match concat_list with Some c => c | None => [] end)
                  out_shape).

(** [out_shape] before the up loop (lines 761-764). *)
Definition initial_out_shape (batchsize : option Z) (nb_filter rows cols : Z)
  : list (option Z) :=
  match image_data_format K with
  | channels_first => [batchsize; Some nb_filter; Some (rows / 16); Some (cols / 16)]
  | channels_last => [batchsize; Some (rows / 16); Some (cols / 16); Some nb_filter]
  end.

Definition rows_cols (input_shape : shape3) : Z * Z :=
  match axis_of (image_data_format K) =? 1, input_shape with
  | true, (_, rows, cols) => (rows, cols)
  | false, (rows, cols, _) => (rows, cols)
  end.

(** Lines 695-735: the checks, and the state in which the down loop
    starts together with the derived layer counts. *)
Definition fcn_prologue (reduction : float) (nb_upsampling_conv : Z)
           (nb_dense_block : Z) (nb_layers_per_block : layers_arg)
  : result (list Z * Z) :=
  _ <- check_reduction reduction ;;
  _ <- assert ((12 <=? nb_upsampling_conv) && (nb_upsampling_conv mod 4 =? 0))
              "Parameter upsampling_conv number of channels must be a positive number divisible by 4 and greater than 12" ;;
  fcn_layers nb_dense_block nb_layers_per_block.

(** Lines 729-764: the down path and the bottleneck block; the result
    is the state in which the up loop starts, with the reversed
    [skip_list]. *)
Definition fcn_down (img_input : tensor) (nb_dense_block growth_rate : Z)
           (reduction : float) (dropout_rate : option float)
           (weight_decay : float) (nb_layers : list Z)
           (bottleneck_nb_layers : Z) (batchsize : option Z)
           (init_conv_filters : Z) (input_shape : shape3)
  : result (up_state * list tensor) :=
  let '(rows, cols) := rows_cols input_shape in
  let compression := PrimFloat.sub 1 reduction in
  let x := Apply (Conv2D init_conv_filters (3, 3) (Some "he_uniform") None
                         (Some "initial_conv2D") (DilInt 1) weight_decay)
                 img_input in
  down <- for_range (range_len nb_dense_block) 0
            (fcn_down_step nb_layers growth_rate compression dropout_rate
                           weight_decay)
            (mk_down_state x init_conv_filters []) ;;
  let '(_, nb_filter, concat_list) :=
    __dense_block (image_data_format K) (dw_x down) bottleneck_nb_layers
                  (dw_nb_filter down) growth_rate false dropout_rate
                  weight_decay true true in
  let skip_list := rev (dw_skip_list down) in
  Ok (mk_up_state (dw_x down) nb_filter
                  (match concat_list with Some c => c | None => [] end)
                  (initial_out_shape batchsize nb_filter rows cols),
      skip_list).

(** Lines 729-802: the state after the up loop. *)
Definition fcn_body (img_input : tensor) (nb_dense_block growth_rate : Z)
           (reduction : float) (dropout_rate : option float)
           (weight_decay : float) (nb_layers : list Z)
           (bottleneck_nb_layers : Z) (upsampling_type : string)
           (batchsize : option Z) (init_conv_filters : Z)
           (input_shape : shape3) : result up_state :=
  '(st0, skip_list) <-
    fcn_down img_input nb_dense_block growth_rate reduction dropout_rate
             weight_decay nb_layers bottleneck_nb_layers batchsize
             init_conv_filters input_shape ;;
  for_range (range_len nb_dense_block) 0
    (fcn_up_step nb_layers nb_dense_block growth_rate dropout_rate weight_decay
                 upsampling_type skip_list)
    st0.

(** The name [top] is neither a parameter nor a local of
    [__create_fcn_dense_net] nor bound in the module, so evaluating it
    raises [NameError]; [and] evaluates it only when [include_top] is
    true. *)
Definition __create_fcn_dense_net (nb_classes : Z) (img_input : tensor)
           (include_top : bool) (nb_dense_block growth_rate : Z)
           (reduction : float) (dropout_rate : option float)
           (weight_decay : float) (nb_layers_per_block : layers_arg)
           (nb_upsampling_conv : Z) (upsampling_type : string)
           (batchsize : option Z) (init_conv_filters : Z)
           (transition_dilation_rate : dilation)
           (transition_pooling : option string)
           (transition_kernel_size : Z * Z) (activation : string)
           (input_shape : shape3) : result tensor :=
  '(nb_layers, bottleneck_nb_layers) <-
    fcn_prologue reduction nb_upsampling_conv nb_dense_block
                 nb_layers_per_block ;;
  st <- fcn_body img_input nb_dense_block growth_rate reduction dropout_rate
                 weight_decay nb_layers bottleneck_nb_layers upsampling_type
                 batchsize init_conv_filters input_shape ;;
  if include_top then Raise (NameError "top")
  else Ok (up_x st).

End DenseNetFCN.

(** ** The fully convolutional entry point *)

Section DenseNetFCN_entry.

Variable K : keras.

(** [str.lower()] on ASCII letters. *)
Definition lower_ascii (c : Ascii.ascii) : Ascii.ascii :=
  let n := Ascii.nat_of_ascii c in
  if (65 <=? n)%nat && (n <=? 90)%nat then Ascii.ascii_of_nat (n + 32) else c.

Fixpoint lower (s : string) : string :=
  match s with
  | EmptyString => EmptyString
  | String c s' => String (lower_ascii c) (lower s')
  end.

Record fcn_args : Type := {
  fcn_input_shape : option shape3;
  fcn_nb_dense_block : Z;
  fcn_growth_rate : Z;
  fcn_nb_layers_per_block : layers_arg;
  fcn_reduction : float;
  fcn_dropout_rate : option float;
  fcn_weight_decay : float;
  fcn_init_conv_filters : Z;
  fcn_include_top : bool;
  fcn_top : option string;
  fcn_weights : option string;
  fcn_input_tensor : option input_arg;
  fcn_classes : Z;
  fcn_activation : string;
  fcn_upsampling_conv : Z;
  fcn_upsampling_type : string;
  fcn_batchsize : option Z;
  fcn_transition_dilation_rate : dilation;
  fcn_transition_pooling : option string;
  fcn_transition_kernel_size : Z * Z
}.

(** The guard of line 309 and the error it builds: the message is
    formatted with [%d] from [nb_layers_per_block], which fails on a
    tuple that has not exactly one element. *)
Definition check_layers_per_block (a : fcn_args) : result unit :=
  if match fcn_nb_layers_per_block a with LList _ => false | _ => true end
     && (fcn_nb_dense_block a <? 1) then
    match fcn_nb_layers_per_block a with
    | LTuple [_] | LInt _ =>
        Raise (ValueError "Number of dense layers per block must be greater than 1. Argument value was %d.")
    | _ => Raise (TypeError "not all arguments converted during string formatting")
    end
  else Ok tt.

(** Lines 290-317. *)
Definition DenseNetFCN_validate (a : fcn_args) : result string :=
  match fcn_weights a with
  | Some _ =>
      Raise (ValueError "The weights argument should be None (random initialization) as no model weights are provided.")
  | None =>
      let upsampling_type := lower (fcn_upsampling_type a) in
      if negb (String.eqb upsampling_type "upsampling"
               || String.eqb upsampling_type "deconv"
               || String.eqb upsampling_type "subpixel") then
        Raise (ValueError "Parameter upsampling_type must be one of upsampling, deconv, or subpixel.")
      else if String.eqb upsampling_type "deconv"
              && match fcn_batchsize a with None => true | Some _ => false end then
        Raise (ValueError "If upsampling_type is deconvoloution, then a fixed batch size must be provided in batchsize parameter.")
      else
        match fcn_input_shape a with
        | None =>
            Raise (ValueError "For fully convolutional models, input shape must be supplied.")
        | Some _ =>
            _ <- check_layers_per_block a ;;
            if negb (String.eqb (fcn_activation a) "softmax"
                     || String.eqb (fcn_activation a) "sigmoid") then
              Raise (ValueError "activation must be one of softmax or sigmoid")
            else if String.eqb (fcn_activation a) "sigmoid"
                    && negb (fcn_classes a =? 1) then
              Raise (ValueError "sigmoid activation can only be used when classes = 1")
            else Ok upsampling_type
        end
  end.

(** The parameter list of [__create_fcn_dense_net] (lines 647-655). *)
Definition fcn_params : list (string * option pyval) :=
  [("nb_classes", None); ("img_input", None); ("include_top", None);
   ("nb_dense_block", Some (VInt 5)); ("growth_rate", Some (VInt 12));
   ("reduction", Some (VFloat 0)); ("dropout_rate", Some VNone);
   ("weight_decay", Some (VFloat 0x1.a36e2eb1c432dp-14));
   ("nb_layers_per_block", Some (VInt 4));
   ("nb_upsampling_conv", Some (VInt 128));
   ("upsampling_type", Some (VStr "upsampling"));
   ("batchsize", Some VNone); ("init_conv_filters", Some (VInt 48));
   ("transition_dilation_rate", Some (VInt 1));
   ("transition_pooling", Some (VStr "avg"));
   ("transition_kernel_size", Some (VPair (1, 1)));
   ("activation", Some (VStr "softmax")); ("input_shape", Some VNone)].

Definition as_dilation (v : pyval) : result dilation :=
  match v with
  | VInt n => Ok (DilInt n)
  | VPair (a, b) => Ok (DilPair a b)
  | _ => bad_type
  end.
Definition as_opt_str (v : pyval) : result (option string) :=
  match v with VStr s => Ok (Some s) | VNone => Ok None | _ => bad_type end.
Definition as_pair (v : pyval) : result (Z * Z) :=
  match v with VPair p => Ok p | _ => bad_type end.

Definition of_dilation (d : dilation) : pyval :=
  match d with DilInt n => VInt n | DilPair a b => VPair (a, b) end.
Definition of_opt_float (d : option float) : pyval :=
  match d with Some f => VFloat f | None => VNone end.
Definition of_opt_int (d : option Z) : pyval :=
  match d with Some n => VInt n | None => VNone end.
Definition of_opt_str (d : option string) : pyval :=
  match d with Some s => VStr s | None => VNone end.

(** A call [__create_fcn_dense_net(v1, ..., vn)]: the arguments are
    bound first, then the body runs on the bound values. *)
Definition call_create_fcn_dense_net (args : list pyval) : result tensor :=
  bound <- bind_positional fcn_params args ;;
  match bound with
  | [nb_classes; img_input; include_top; nb_dense_block; growth_rate;
     reduction; dropout_rate; weight_decay; nb_layers_per_block;
     nb_upsampling_conv; upsampling_type; batchsize; init_conv_filters;
     transition_dilation_rate; transition_pooling; transition_kernel_size;
     activation; input_shape] =>
      nb_classes <- as_int nb_classes ;;
      img_input <- as_tensor img_input ;;
      include_top <- as_bool include_top ;;
      nb_dense_block <- as_int nb_dense_block ;;
      growth_rate <- as_int growth_rate ;;
      reduction <- as_float reduction ;;
      dropout_rate <- as_opt_float dropout_rate ;;
      weight_decay <- as_float weight_decay ;;
      nb_layers_per_block <- as_layers nb_layers_per_block ;;
      nb_upsampling_conv <- as_int nb_upsampling_conv ;;
      upsampling_type <- as_str upsampling_type ;;
      batchsize <- as_opt_int batchsize ;;
      init_conv_filters <- as_int init_conv_filters ;;
      transition_dilation_rate <- as_dilation transition_dilation_rate ;;
      transition_pooling <- as_opt_str transition_pooling ;;
      transition_kernel_size <- as_pair transition_kernel_size ;;
      activation <- as_str activation ;;
      input_shape <- as_shape input_shape ;;
      __create_fcn_dense_net K nb_classes img_input include_top nb_dense_block
        growth_rate reduction dropout_rate weight_decay nb_layers_per_block
        nb_upsampling_conv upsampling_type batchsize init_conv_filters
        transition_dilation_rate transition_pooling transition_kernel_size
        activation input_shape
  | _ => bad_type
  end.

(** The arguments of the call of lines 337-342, in the order written. *)
Definition DenseNetFCN_call_args (a : fcn_args) (upsampling_type : string)
           (img_input : tensor) (input_shape : shape3) : list pyval :=
  [VInt (fcn_classes a); VTensor img_input; VBool (fcn_include_top a);
   VInt (fcn_nb_dense_block a);
   VInt (fcn_growth_rate a); VFloat (fcn_reduction a);
   of_opt_float (fcn_dropout_rate a); VFloat (fcn_weight_decay a);
   VLayers (fcn_nb_layers_per_block a); VInt (fcn_upsampling_conv a);
   VStr upsampling_type;
   of_opt_int (fcn_batchsize a); VInt (fcn_init_conv_filters a);
   VShape input_shape; of_dilation (fcn_transition_dilation_rate a);
   of_opt_str (fcn_transition_pooling a);
   VPair (fcn_transition_kernel_size a);
   VStr (fcn_activation a); VShape input_shape].

Definition DenseNetFCN (a : fcn_args) : result model :=
  upsampling_type <- DenseNetFCN_validate a ;;
  input_shape <-
    _obtain_input_shape K (fcn_input_shape a) 32 16 (image_data_format K) false ;;
  let img_input := make_img_input (fcn_input_tensor a) input_shape in
  x <- call_create_fcn_dense_net
         (DenseNetFCN_call_args a upsampling_type img_input input_shape) ;;
  Ok (Model (make_inputs (fcn_input_tensor a) img_input) x "fcn-densenet").

End DenseNetFCN_entry.

(** ** Observations on graphs and shapes *)

(** The filter count of the convolution a transition block ends with,
    below its optional dropout and pooling. *)
Fixpoint transition_conv_filters (t : tensor) : option Z :=
  match t with
  | Apply (Conv2D filters _ _ _ _ _ _) _ => Some filters
  | Apply (Dropout _) ip => transition_conv_filters ip
  | Apply (AveragePooling2D _ _) ip => transition_conv_filters ip
  | _ => None
  end.




(** Whether a run of [DenseNet] asked for a weight file and loaded it. *)
Definition is_get_file (e : event) : bool :=
  match e with GetFile _ _ _ => true | _ => false end.
Definition is_load_weights (e : event) : bool :=
  match e with LoadWeights _ => true | _ => false end.
Definition weights_loaded (evs : list event) : bool :=
  existsb is_get_file evs && existsb is_load_weights evs.

(** ** A framework configuration and the default arguments *)

(** A stand-in for the framework's [_obtain_input_shape]: the default
    shape when none is given, the default shape or an error when
    [include_top] is set, a shape with three channels and both sides at
    least [min_size] otherwise. *)
Definition sample_obtain_input_shape (input_shape : option shape3)
           (default_size min_size : Z) (fmt : data_format) (include_top : bool)
  : result shape3 :=
  let default_shape :=
    match fmt with
    | channels_first => (3, default_size, default_size)
    | channels_last => (default_size, default_size, 3)
    end in
  let '(channels, rows, cols) :=
    match fmt, input_shape with
    | _, None => (3, default_size, default_size)
    | channels_first, Some (c, h, w) => (c, h, w)
    | channels_last, Some (h, w, c) => (c, h, w)
    end in
  match input_shape with
  | None => Ok default_shape
  | Some s =>
      if include_top then
        if (channels =? 3) && (rows =? default_size) && (cols =? default_size)
        then Ok default_shape
        else Raise (ValueError "When setting include_top=True, input_shape should be the default shape.")
      else if negb (channels =? 3) then
        Raise (ValueError "The input must have 3 channels")
      else if (rows <? min_size) || (cols <? min_size) then
        Raise (ValueError "Input size must be at least min_size")
      else Ok s
  end.

Definition keras_tf : keras := {|
  image_data_format := channels_last;
  backend := tensorflow;
  _obtain_input_shape := sample_obtain_input_shape
|}.

Definition keras_th : keras := {|
  image_data_format := channels_first;
  backend := theano;
  _obtain_input_shape := sample_obtain_input_shape
|}.

(** [1E-4], the default [weight_decay]. *)
Definition wd_default : float := 0x1.a36e2eb1c432dp-14.

(** [DenseNet()] with every argument at its default. *)
Definition densenet_defaults : densenet_args := {|
  dn_input_shape := None;
  dn_depth := Some 40;
  dn_nb_dense_block := 3;
  dn_growth_rate := 12;
  dn_nb_filter := 16;
  dn_nb_layers_per_block := LInt (-1);
  dn_bottleneck := false;
  dn_reduction := 0;
  dn_dropout_rate := Some 0%float;
  dn_weight_decay := wd_default;
  dn_include_top := true;
  dn_top := Some "classification";
  dn_weights := Some "cifar10";
  dn_input_tensor := None;
  dn_classes := 10;
  dn_transition_dilation_rate := DilInt 1;
  dn_transition_pooling := Some "avg";
  dn_transition_kernel_size := (1, 1);
  dn_activation := "softmax"
|}.

(** [DenseNet(classes=100)] *)
Definition densenet_100_classes : densenet_args := {|
  dn_input_shape := None;
  dn_depth := Some 40;
  dn_nb_dense_block := 3;
  dn_growth_rate := 12;
  dn_nb_filter := 16;
  dn_nb_layers_per_block := LInt (-1);
  dn_bottleneck := false;
  dn_reduction := 0;
  dn_dropout_rate := Some 0%float;
  dn_weight_decay := wd_default;
  dn_include_top := true;
  dn_top := Some "classification";
  dn_weights := Some "cifar10";
  dn_input_tensor := None;
  dn_classes := 100;
  dn_transition_dilation_rate := DilInt 1;
  dn_transition_pooling := Some "avg";
  dn_transition_kernel_size := (1, 1);
  dn_activation := "softmax"
|}.

(** [DenseNet(depth=41, weights=None)] *)
Definition densenet_depth_41 : densenet_args := {|
  dn_input_shape := None;
  dn_depth := Some 41;
  dn_nb_dense_block := 3;
  dn_growth_rate := 12;
  dn_nb_filter := 16;
  dn_nb_layers_per_block := LInt (-1);
  dn_bottleneck := false;
  dn_reduction := 0;
  dn_dropout_rate := Some 0%float;
  dn_weight_decay := wd_default;
  dn_include_top := true;
  dn_top := Some "classification";
  dn_weights := None;
  dn_input_tensor := None;
  dn_classes := 10;
  dn_transition_dilation_rate := DilInt 1;
  dn_transition_pooling := Some "avg";
  dn_transition_kernel_size := (1, 1);
  dn_activation := "softmax"
|}.

(** [DenseNetFCN(input_shape, nb_layers_per_block=n, include_top=top)]
    with the other arguments at their defaults. *)
Definition fcn_defaults (input_shape : shape3) (nb_layers_per_block : layers_arg)
           (include_top : bool) : fcn_args := {|
  fcn_input_shape := Some input_shape;
  fcn_nb_dense_block := 5;
  fcn_growth_rate := 16;
  fcn_nb_layers_per_block := nb_layers_per_block;
  fcn_reduction := 0;
  fcn_dropout_rate := Some 0%float;
  fcn_weight_decay := wd_default;
  fcn_init_conv_filters := 48;
  fcn_include_top := include_top;
  fcn_top := Some "segmentation";
  fcn_weights := None;
  fcn_input_tensor := None;
  fcn_classes := 1;
  fcn_activation := "softmax";
  fcn_upsampling_conv := 128;
  fcn_upsampling_type := "upsampling";
  fcn_batchsize := None;
  fcn_transition_dilation_rate := DilInt 1;
  fcn_transition_pooling := Some "avg";
  fcn_transition_kernel_size := (1, 1)
|}.

(** ** Channel counts *)

Definition shape_channels (fmt : data_format) (s : shape3) : Z :=
  match fmt, s with
  | channels_first, (c, _, _) => c
  | channels_last, (_, _, c) => c
  end.

(** The number of channels of a tensor as the declared layers give it: a
    convolution or a dense layer outputs its filters or units, a
    concatenation on the channel axis the sum over its inputs, and the
    normalisation, activation, dropout, pooling and upsampling layers
    keep the channels of their input. *)
Fixpoint channels (fmt : data_format) (t : tensor) : option Z :=
  match t with
  | Input s | InputOf _ s => Some (shape_channels fmt s)
  | KerasTensor _ => None
  | Apply l ip =>
      match l with
      | Conv2D filters _ _ _ _ _ _ => Some filters
      | Conv2DTranspose filters _ _ => Some filters
      | Dense units _ _ => Some units
      | Reshape _ => None
      | SubPixelUpscaling s =>
          match channels fmt ip with
          | Some c => Some (c / (s * s))
          | None => None
          end
      | _ => channels fmt ip
      end
  | Merge xs _ =>
      (fix sum (l : list tensor) : option Z :=
         match l with
         | [] => Some 0
         | x :: l' =>
             match channels fmt x, sum l' with
             | Some a, Some b => Some (a + b)
             | _, _ => None
             end
         end) xs
  end.

Fixpoint sum_channels (fmt : data_format) (l : list tensor) : option Z :=
  match l with
  | [] => Some 0
  | x :: l' =>
      match channels fmt x, sum_channels fmt l' with
      | Some a, Some b => Some (a + b)
      | _, _ => None
      end
  end.


(** * Properties *)

(** ** Generic facts on the error type and on loops *)

Lemma bind_ok_inv {A B} (m : result A) (k : A -> result B) (b : B) :
  Py.bind m k = Ok b -> exists a, m = Ok a /\ k a = Ok b.
Proof.
  destruct m as [a | e]; simpl; intros H; [eauto | discriminate].
Qed.


Lemma for_range_split {St} (n m : nat) (i : Z) (body : Z -> St -> result St)
      (st : St) :
  for_range (n + m) i body st =
  Py.bind (for_range n i body st) (for_range m (i + Z.of_nat n) body).
Proof.
  revert i st; induction n as [| n IH]; intros i st.
  - simpl. now rewrite Z.add_0_r.
  - change (S n + m)%nat with (S (n + m)). cbn [for_range].
    destruct (body i st) as [st' | e]; simpl; [| reflexivity].
    rewrite IH. do 2 f_equal. lia.
Qed.

Lemma for_range_prefix {St} (n m : nat) (i : Z) (body : Z -> St -> result St)
      (st st' : St) :
  for_range (n + m) i body st = Ok st' ->
  exists st1, for_range n i body st = Ok st1
              /\ for_range m (i + Z.of_nat n) body st1 = Ok st'.
Proof.
  rewrite for_range_split. intros H.
  apply bind_ok_inv in H. exact H.
Qed.

(** ** Dense blocks *)

Section DenseBlock.

Variable fmt : data_format.
Variables (x0 : tensor) (growth_rate : Z) (bottleneck : bool).
Variables (dropout_rate : option float) (weight_decay : float).
Variable grow_nb_filters : bool.

Local Abbreviation conv ip :=
  (__conv_block fmt ip growth_rate bottleneck dropout_rate weight_decay).
Local Abbreviation loop n :=
  (dense_loop fmt n growth_rate bottleneck dropout_rate weight_decay
              grow_nb_filters).
Local Abbreviation connected :=
  (densely_connected fmt x0 growth_rate bottleneck dropout_rate weight_decay).



Lemma dense_loop_filters (n : nat) :
  forall st : dense_state,
    ds_nb_filter (loop n st) =
    if grow_nb_filters then ds_nb_filter st + Z.of_nat n * growth_rate
    else ds_nb_filter st.
Proof.
  induction n as [| n IH]; intros st.
  - simpl. destruct grow_nb_filters; lia.
  - cbn [dense_loop]. rewrite IH. unfold dense_step. cbn [ds_nb_filter].
    destruct grow_nb_filters; lia.
Qed.

End DenseBlock.



(** C7, as amended.  The filter count a dense block returns is the input
    [nb_filter] plus [growth_rate] for each conv block built when
    [grow_nb_filters] is true, and the input [nb_filter] otherwise; the
    block builds [max(nb_layers, 0)] conv blocks, so the sum is
    [nb_filter + nb_layers * growth_rate] exactly when [nb_layers >= 0]. *)
Theorem dense_block_filter_count
        (fmt : data_format) (x : tensor) (nb_layers nb_filter growth_rate : Z)
        (bottleneck : bool) (dropout_rate : option float) (weight_decay : float)
        (grow_nb_filters return_concat_list : bool) :
  snd (fst (__dense_block fmt x nb_layers nb_filter growth_rate bottleneck
                          dropout_rate weight_decay grow_nb_filters
                          return_concat_list))
  = if grow_nb_filters then nb_filter + Z.max nb_layers 0 * growth_rate
    else nb_filter.
Proof.
  unfold __dense_block. cbn [fst snd].
  rewrite dense_loop_filters. cbn [ds_nb_filter].
  unfold range_len.
  destruct grow_nb_filters; [| reflexivity].
  replace (Z.of_nat (Z.to_nat nb_layers)) with (Z.max nb_layers 0) by lia.
  reflexivity.
Qed.

(** C7 as stated fails for a negative [nb_layers]: no conv block is
    built and the filter count stays at 16, not at 16 + (-1) * 12. *)
Lemma dense_block_filter_count_negative_layers :
  snd (fst (__dense_block channels_last (Input (32, 32, 3)) (-1) 16 12 false None
                          wd_default true false))
  <> 16 + (-1) * 12.
Proof. vm_compute. discriminate. Qed.

(** ** Transition blocks *)

Lemma str_is_true (s : option string) (lit : string) :
  str_is s lit = true <-> s = Some lit.
Proof.
  destruct s as [v |]; simpl.
  - rewrite String.eqb_eq. split; congruence.
  - split; discriminate.
Qed.

Lemma transition_block_cases
      (fmt : data_format) (ip : tensor) (nb_filter : Z) (compression : float)
      (dropout_rate : option float) (weight_decay : float)
      (dilation_rate : dilation) (pooling : option string) (kernel_size : Z * Z) :
  match compress nb_filter compression with
  | Raise e =>
      __transition_block fmt ip nb_filter compression dropout_rate weight_decay
                         dilation_rate pooling kernel_size = Raise e
  | Ok filters =>
      if str_is pooling "avg" then
        exists x,
          __transition_block fmt ip nb_filter compression dropout_rate
                             weight_decay dilation_rate pooling kernel_size
          = Ok x /\ transition_conv_filters x = Some filters
      else if str_is pooling "max" then
        __transition_block fmt ip nb_filter compression dropout_rate weight_decay
                           dilation_rate pooling kernel_size
        = Raise (NameError "MaxPooling2D")
      else
        exists x,
          __transition_block fmt ip nb_filter compression dropout_rate
                             weight_decay dilation_rate pooling kernel_size
          = Ok x /\ transition_conv_filters x = Some filters
  end.
Proof.
  unfold __transition_block.
  destruct (compress nb_filter compression) as [filters | e]; simpl;
    [| reflexivity].
  assert (Hd : forall t, transition_conv_filters t = Some filters ->
                         transition_conv_filters (dropout dropout_rate t)
                         = Some filters).
  { intros t Ht. unfold dropout.
    destruct dropout_rate as [r |]; [| exact Ht].
    destruct (truthy (Some r)); [exact Ht | exact Ht]. }
  destruct (str_is pooling "avg").
  - eexists. split; [reflexivity |]. simpl. now apply Hd.
  - destruct (str_is pooling "max"); [reflexivity |].
    eexists. split; [reflexivity |]. now apply Hd.
Qed.

(** C10, as amended.  With [pooling == "max"] the branch taken names
    [MaxPooling2D], which the module never binds: the call never returns
    a tensor, and it fails with that [NameError] whenever the filter
    count [int(nb_filter * compression)] of the convolution before the
    branch can be computed; when that conversion itself raises, its error
    is what the call raises.  Only a [pooling] other than "max" gives a
    result, and it does so whenever the filter count can be computed. *)
Theorem transition_block_max_pooling_unbound
        (fmt : data_format) (ip : tensor) (nb_filter : Z) (compression : float)
        (dropout_rate : option float) (weight_decay : float)
        (dilation_rate : dilation) (pooling : option string)
        (kernel_size : Z * Z) :
  let r := __transition_block fmt ip nb_filter compression dropout_rate
                              weight_decay dilation_rate pooling kernel_size in
  (pooling = Some "max" ->
   is_ok r = false
   /\ (is_ok (compress nb_filter compression) = true ->
       r = Raise (NameError "MaxPooling2D"))
   /\ (forall e, compress nb_filter compression = Raise e -> r = Raise e))
  /\ (is_ok r = true -> pooling <> Some "max")
  /\ (pooling <> Some "max" ->
      is_ok (compress nb_filter compression) = true -> is_ok r = true).
Proof.
  intros r.
  pose proof (transition_block_cases fmt ip nb_filter compression dropout_rate
                weight_decay dilation_rate pooling kernel_size) as H.
  fold r in H.
  assert (Hmax : pooling = Some "max" ->
                 str_is pooling "avg" = false /\ str_is pooling "max" = true).
  { intros ->. split; reflexivity. }
  split; [| split].
  - intros Hp. destruct (Hmax Hp) as [Ha Hm]. rewrite Ha, Hm in H.
    destruct (compress nb_filter compression) as [filters | e].
    + rewrite H. repeat split; try reflexivity. intros e He. discriminate.
    + rewrite H. repeat split; try reflexivity.
      * simpl. discriminate.
      * intros e' He'. congruence.
  - intros Hok Hp. destruct (Hmax Hp) as [Ha Hm]. rewrite Ha, Hm in H.
    destruct (compress nb_filter compression); rewrite H in Hok; discriminate.
  - intros Hp Hc.
    destruct (compress nb_filter compression) as [filters | e];
      [| discriminate].
    destruct (str_is pooling "avg").
    + destruct H as (x & -> & _). reflexivity.
    + destruct (str_is pooling "max") eqn:Hm.
      * apply str_is_true in Hm. contradiction.
      * destruct H as (x & -> & _). reflexivity.
Qed.

Lemma transition_block_max_pooling_unbound_witness :
  __transition_block channels_last (Input (32, 32, 3)) 16 1 None wd_default
                     (DilInt 1) (Some "max") (1, 1)
  = Raise (NameError "MaxPooling2D").
Proof.
  destruct (transition_block_max_pooling_unbound
              channels_last (Input (32, 32, 3)) 16 1 None wd_default (DilInt 1)
              (Some "max") (1, 1)) as [Hmax _].
  destruct (Hmax eq_refl) as (_ & Hname & _).
  apply Hname. reflexivity.
Defined.

(** C10 as stated fails when the filter count cannot be computed: with an
    infinite [compression] the call raises [OverflowError] in
    [int(nb_filter * compression)], before the pooling branch. *)
Lemma transition_block_max_pooling_overflow :
  ~ (exists name,
        __transition_block channels_last (Input (32, 32, 3)) 16 infinity None
                           wd_default (DilInt 1) (Some "max") (1, 1)
        = Raise (NameError name)).
Proof. intros [name H]. vm_compute in H. discriminate. Qed.

(** ** The classification network: checks and derived integers *)

Lemma is_not_minus1_false (v : layers_arg) :
  is_not_minus1 v = false <-> v = LInt (-1).
Proof.
  destruct v as [n | l | l]; simpl; try (split; discriminate).
  rewrite negb_false_iff, Z.eqb_eq. split; congruence.
Qed.

Lemma check_depth_ok (depth : option Z) (nb_layers_per_block : layers_arg) :
  is_ok (check_depth depth nb_layers_per_block) = true <->
  match depth with
  | Some d => (d - 4) mod 3 = 0
  | None => nb_layers_per_block <> LInt (-1)
  end.
Proof.
  unfold check_depth, assert. destruct depth as [d |].
  - destruct ((d - 4) mod 3 =? 0) eqn:E; simpl.
    + apply Z.eqb_eq in E. tauto.
    + apply Z.eqb_neq in E. split; [discriminate | contradiction].
  - destruct (is_not_minus1 nb_layers_per_block) eqn:E; simpl.
    + split; [| reflexivity]. intros _ Hv.
      apply is_not_minus1_false in Hv. congruence.
    + apply is_not_minus1_false in E. split; [discriminate | contradiction].
Qed.

Lemma create_dense_net_depth_error
      (K : keras) (nb_classes : Z) (img_input : tensor) (include_top : bool)
      (top : option string) (depth : option Z)
      (nb_dense_block growth_rate nb_filter : Z) (nb_layers_per_block : layers_arg)
      (bottleneck : bool) (reduction : float) (dropout_rate : option float)
      (weight_decay : float) (transition_dilation_rate : dilation)
      (transition_pooling : option string) (transition_kernel_size : Z * Z)
      (input_shape : shape3) (activation : string) (e : exn) :
  check_depth depth nb_layers_per_block = Raise e ->
  __create_dense_net K nb_classes img_input include_top top depth nb_dense_block
    growth_rate nb_filter nb_layers_per_block bottleneck reduction dropout_rate
    weight_decay transition_dilation_rate transition_pooling
    transition_kernel_size input_shape activation
  = Raise e.
Proof. intros H. unfold __create_dense_net. now rewrite H. Qed.

Lemma DenseNet_depth_error (K : keras) (a : densenet_args) (e : exn) :
  check_depth (dn_depth a) (dn_nb_layers_per_block a) = Raise e ->
  is_ok (snd (DenseNet K a)) = false /\ fst (DenseNet K a) = [].
Proof.
  intros H. unfold DenseNet, DenseNet_build.
  destruct (DenseNet_validate a); simpl; [| auto].
  destruct (_obtain_input_shape K _ _ _ _ _); simpl; [| auto].
  erewrite create_dense_net_depth_error by exact H. simpl. auto.
Qed.

(** C4.  With [depth] given, [__create_dense_net] goes on only if
    [(depth - 4)] is divisible by 3 and raises [AssertionError] for any
    other depth; with [depth] None it raises unless [nb_layers_per_block]
    differs from -1.  [DenseNet], which calls it, fails in the same cases
    and fetches nothing. *)
Theorem depth_divisibility_check
        (K : keras) (nb_classes : Z) (img_input : tensor) (include_top : bool)
        (top : option string) (depth : option Z)
        (nb_dense_block growth_rate nb_filter : Z)
        (nb_layers_per_block : layers_arg) (bottleneck : bool)
        (reduction : float) (dropout_rate : option float) (weight_decay : float)
        (transition_dilation_rate : dilation) (transition_pooling : option string)
        (transition_kernel_size : Z * Z) (input_shape : shape3)
        (activation : string) :
  let r := __create_dense_net K nb_classes img_input include_top top depth
             nb_dense_block growth_rate nb_filter nb_layers_per_block bottleneck
             reduction dropout_rate weight_decay transition_dilation_rate
             transition_pooling transition_kernel_size input_shape activation in
  (forall d, depth = Some d -> (d - 4) mod 3 <> 0 ->
     r = Raise (AssertionError "Depth must be nb_dense_block * N + 4"))
  /\ (depth = None -> nb_layers_per_block = LInt (-1) ->
      r = Raise (AssertionError
                   "Depth cannot be None when nb_layers_per_block is -1. Specify either parameter."))
  /\ (is_ok r = true ->
      match depth with
      | Some d => (d - 4) mod 3 = 0
      | None => nb_layers_per_block <> LInt (-1)
      end)
  /\ (forall a : densenet_args,
        match dn_depth a with
        | Some d => (d - 4) mod 3 <> 0
        | None => dn_nb_layers_per_block a = LInt (-1)
        end ->
        is_ok (snd (DenseNet K a)) = false /\ fst (DenseNet K a) = []).
Proof.
  intros r. split; [| split; [| split]].
  - intros d -> Hd. apply create_dense_net_depth_error.
    unfold check_depth, assert. apply Z.eqb_neq in Hd. now rewrite Hd.
  - intros -> ->. apply create_dense_net_depth_error. reflexivity.
  - intros Hok. apply check_depth_ok.
    destruct (check_depth depth nb_layers_per_block) as [u | e] eqn:E;
      [reflexivity |].
    unfold r in Hok. erewrite create_dense_net_depth_error in Hok by exact E.
    discriminate.
  - intros a Ha.
    destruct (check_depth (dn_depth a) (dn_nb_layers_per_block a)) as [u | e] eqn:E.
    + assert (Hok : is_ok (check_depth (dn_depth a) (dn_nb_layers_per_block a))
                    = true) by now rewrite E.
      apply check_depth_ok in Hok.
      destruct (dn_depth a); contradiction.
    + now apply DenseNet_depth_error with (e := e).
Qed.

Lemma depth_divisibility_check_witness :
  (41 - 4) mod 3 <> 0
  /\ __create_dense_net keras_tf 10 (Input (32, 32, 3)) true
       (Some "classification") (Some 41) 3 12 16 (LInt (-1)) false 0 None
       wd_default (DilInt 1) (Some "avg") (1, 1) (32, 32, 3) "softmax"
     = Raise (AssertionError "Depth must be nb_dense_block * N + 4").
Proof.
  assert (H : (41 - 4) mod 3 <> 0) by (vm_compute; discriminate).
  split; [exact H |].
  exact (proj1 (depth_divisibility_check
                  keras_tf 10 (Input (32, 32, 3)) true (Some "classification")
                  (Some 41) 3 12 16 (LInt (-1)) false 0 None wd_default
                  (DilInt 1) (Some "avg") (1, 1) (32, 32, 3) "softmax")
               41 eq_refl H).
Defined.


Example layers_depth_40 :
  dense_net_layers (Some 40) 3 (LInt (-1)) false = Ok ([12; 12; 12], 12)
  /\ dense_net_layers (Some 40) 3 (LInt (-1)) true = Ok ([6; 6; 6], 12).
Proof. split; vm_compute; reflexivity. Qed.

(** On every depth [4 + 3 k] up to 3004 the float division is exact:
    [int((depth - 4) / 3)] is the integer quotient. *)
Lemma layer_count_exact (d : Z) :
  4 <= d <= 3004 -> (d - 4) mod 3 = 0 -> layer_count d = Ok ((d - 4) / 3).
Proof.
  intros Hd Hm.
  assert (Hall : forallb (fun k : nat =>
                            match layer_count (4 + 3 * Z.of_nat k) with
                            | Ok c => c =? Z.of_nat k
                            | Raise _ => false
                            end) (seq 0 1001) = true)
    by (vm_compute; reflexivity).
  rewrite forallb_forall in Hall.
  specialize (Hall (Z.to_nat ((d - 4) / 3))).
  assert (Hk : Z.of_nat (Z.to_nat ((d - 4) / 3)) = (d - 4) / 3).
  { apply Z2Nat.id. apply Z.div_pos; lia. }
  assert (Hd' : d = 4 + 3 * ((d - 4) / 3)).
  { pose proof (Z.div_mod (d - 4) 3 ltac:(lia)). lia. }
  rewrite Hk in Hall. rewrite <- Hd' in Hall.
  destruct (layer_count d) as [c | e].
  - f_equal. apply Z.eqb_eq. apply Hall.
    apply in_seq. split; [lia |].
    assert ((d - 4) / 3 <= 1000) by (apply Z.div_le_upper_bound; lia). lia.
  - assert (false = true); [| discriminate].
    apply Hall. apply in_seq. split; [lia |].
    assert ((d - 4) / 3 <= 1000) by (apply Z.div_le_upper_bound; lia). lia.
Qed.

(** ** Compression *)





(** ** Pretrained weights *)

Lemma default_parameters_match_spec (a : densenet_args) :
  default_parameters_match a = true <->
  dn_depth a = Some 40 /\ dn_nb_dense_block a = 3 /\ dn_growth_rate a = 12
  /\ dn_nb_filter a = 16 /\ dn_bottleneck a = false
  /\ PrimFloat.eqb (dn_reduction a) 0 = true
  /\ (exists r, dn_dropout_rate a = Some r /\ PrimFloat.eqb r 0 = true)
  /\ PrimFloat.eqb (dn_weight_decay a) wd_default = true.
Proof.
  unfold default_parameters_match, wd_default.
  repeat rewrite andb_true_iff. rewrite negb_true_iff.
  repeat rewrite Z.eqb_eq.
  split.
  - intros (((((((Hd & Hb) & Hg) & Hf) & Hbo) & Hr) & Hdr) & Hw).
    repeat split; auto.
    + destruct (dn_depth a) as [d |]; [| discriminate].
      apply Z.eqb_eq in Hd. congruence.
    + destruct (dn_dropout_rate a) as [r |]; [| discriminate]. eauto.
  - intros (Hd & Hb & Hg & Hf & Hbo & Hr & (r & Hdr & Hr0) & Hw).
    rewrite Hd, Hdr. repeat split; auto.
Qed.

Lemma load_weights_events (K : keras) (a : densenet_args) :
  if str_is (dn_weights a) "cifar10" && default_parameters_match a then
    exists fname origin rest,
      DenseNet_load_weights K a
      = GetFile fname origin "models" :: LoadWeights fname :: rest
      /\ In origin [TH_WEIGHTS_PATH; TH_WEIGHTS_PATH_NO_TOP;
                    TF_WEIGHTS_PATH; TF_WEIGHTS_PATH_NO_TOP]
  else DenseNet_load_weights K a = [].
Proof.
  unfold DenseNet_load_weights.
  destruct (str_is (dn_weights a) "cifar10"); simpl; [| reflexivity].
  destruct (default_parameters_match a); simpl; [| reflexivity].
  destruct (image_data_format K), (dn_include_top a); simpl;
    do 3 eexists; (split; [reflexivity |]); simpl; tauto.
Qed.

(** C3, as amended.  For every call of [DenseNet] that returns a model,
    a pretrained-weights file is fetched by URL and loaded into the model
    if and only if [weights == 'cifar10'] and the hyperparameters are
    those of the pretrained configuration (depth 40, 3 dense blocks,
    growth rate 12, 16 filters, no bottleneck, reduction 0.0, dropout
    rate 0.0, weight decay 1E-4); every other such call returns the model
    with nothing fetched or loaded.  A call that raises (a rejected
    argument, a failed assertion) fetches and loads nothing. *)
Theorem pretrained_weights_loading (K : keras) (a : densenet_args) :
  let wanted := str_is (dn_weights a) "cifar10" && default_parameters_match a in
  (is_ok (snd (DenseNet K a)) = true ->
   (weights_loaded (fst (DenseNet K a)) = true <-> wanted = true)
   /\ (wanted = true ->
       exists fname origin rest,
         fst (DenseNet K a)
         = GetFile fname origin "models" :: LoadWeights fname :: rest
         /\ In origin [TH_WEIGHTS_PATH; TH_WEIGHTS_PATH_NO_TOP;
                       TF_WEIGHTS_PATH; TF_WEIGHTS_PATH_NO_TOP])
   /\ (wanted = false -> fst (DenseNet K a) = []))
  /\ (is_ok (snd (DenseNet K a)) = false -> fst (DenseNet K a) = []).
Proof.
  intros wanted. pose proof (load_weights_events K a) as H. fold wanted in H.
  unfold DenseNet.
  destruct (DenseNet_build K a) as [m | e]; simpl; split;
    try discriminate; try reflexivity.
  intros _. destruct wanted.
  - destruct H as (fname & origin & rest & He & Hin). rewrite He.
    split; [split; reflexivity |]. split; [| discriminate].
    intros _. exists fname, origin, rest. auto.
  - rewrite H. split; [split; discriminate |]. split; [discriminate | reflexivity].
Qed.

Lemma pretrained_weights_loading_witness :
  is_ok (snd (DenseNet keras_tf densenet_defaults)) = true
  /\ weights_loaded (fst (DenseNet keras_tf densenet_defaults)) = true.
Proof.
  assert (Hok : is_ok (snd (DenseNet keras_tf densenet_defaults)) = true)
    by (vm_compute; reflexivity).
  split; [exact Hok |].
  destruct (proj1 (pretrained_weights_loading keras_tf densenet_defaults) Hok)
    as (Hiff & _ & _).
  apply Hiff. vm_compute. reflexivity.
Defined.

(** C3 as stated fails for [DenseNet(classes=100)]: [weights] is
    'cifar10' and the hyperparameters are the pretrained ones, yet the
    call raises [ValueError] and no file is fetched or loaded. *)
Lemma pretrained_weights_rejected_classes :
  ~ (weights_loaded (fst (DenseNet keras_tf densenet_100_classes)) = true <->
     str_is (dn_weights densenet_100_classes) "cifar10"
     && default_parameters_match densenet_100_classes = true).
Proof.
  intros [_ H].
  assert (Hw : weights_loaded (fst (DenseNet keras_tf densenet_100_classes))
               = false) by (vm_compute; reflexivity).
  rewrite H in Hw; [discriminate | vm_compute; reflexivity].
Qed.

Example densenet_defaults_theano :
  fst (DenseNet keras_th densenet_defaults)
  = [GetFile "densenet_40_12_th_dim_ordering_th_kernels.h5" TH_WEIGHTS_PATH
             "models";
     LoadWeights "densenet_40_12_th_dim_ordering_th_kernels.h5"].
Proof. vm_compute. reflexivity. Qed.

Example densenet_100_classes_raises :
  DenseNet keras_tf densenet_100_classes
  = ([], Raise (ValueError "If using weights as CIFAR 10 with include_top as true, classes should be 10")).
Proof. vm_compute. reflexivity. Qed.

(** ** Output shapes of the up path *)





Section UpPath.

Variable K : keras.
Variables (nb_layers : list Z) (nb_dense_block growth_rate : Z).
Variables (dropout_rate : option float) (weight_decay : float).
Variables (upsampling_type : string) (skip_list : list tensor).

Local Abbreviation up_step :=
  (fcn_up_step K nb_layers nb_dense_block growth_rate dropout_rate weight_decay
               upsampling_type skip_list).



End UpPath.


(** When the body of [__create_fcn_dense_net] completes, each of its
    [nb_dense_block] up passes started from a state the loop reached. *)
Lemma fcn_body_up_passes
      (K : keras) (img_input : tensor) (nb_dense_block growth_rate : Z)
      (reduction : float) (dropout_rate : option float) (weight_decay : float)
      (nb_layers : list Z) (bottleneck_nb_layers : Z)
      (upsampling_type : string) (batchsize : option Z)
      (init_conv_filters : Z) (input_shape : shape3) (st_end : up_state) :
  fcn_body K img_input nb_dense_block growth_rate reduction dropout_rate
           weight_decay nb_layers bottleneck_nb_layers upsampling_type
           batchsize init_conv_filters input_shape
  = Ok st_end ->
  exists st0 skip_list,
    fcn_down K img_input nb_dense_block growth_rate reduction dropout_rate
             weight_decay nb_layers bottleneck_nb_layers batchsize
             init_conv_filters input_shape
    = Ok (st0, skip_list)
    /\ forall k : nat,
         (k <= range_len nb_dense_block)%nat ->
         exists st,
           for_range k 0
             (fcn_up_step K nb_layers nb_dense_block growth_rate dropout_rate
                          weight_decay upsampling_type skip_list) st0
           = Ok st.
Proof.
  unfold fcn_body. intros H.
  apply bind_ok_inv in H. destruct H as ([st0 skip_list] & Hd & Hup).
  exists st0, skip_list. split; [exact Hd |].
  intros k Hk.
  replace (range_len nb_dense_block)
    with (k + (range_len nb_dense_block - k))%nat in Hup by lia.
  apply for_range_prefix in Hup. destruct Hup as (st & Hst & _). eauto.
Qed.




Example deconv_out_shape_after_five_up_blocks :
  match fcn_body keras_tf (Input (224, 224, 3)) 5 16 0 None wd_default
                 (repeat 4 11) 4 "deconv" (Some 8) 48 (224, 224, 3) with
  | Ok st => up_out_shape st
  | Raise _ => []
  end
  = [Some 8; Some 448; Some 448; Some 64].
Proof. vm_compute. reflexivity. Qed.

(** ** The fully convolutional network and its entry point *)

Lemma DenseNetFCN_call_arity (K : keras) (a : fcn_args) (upsampling_type : string)
      (img_input : tensor) (input_shape : shape3) :
  call_create_fcn_dense_net K
    (DenseNetFCN_call_args a upsampling_type img_input input_shape)
  = Raise (TypeError "too many positional arguments").
Proof. reflexivity. Qed.





Example DenseNetFCN_default_call :
  DenseNetFCN keras_tf (fcn_defaults (32, 32, 3) (LInt 4) true)
  = Raise (TypeError "too many positional arguments").
Proof. vm_compute. reflexivity. Qed.

Lemma check_layers_per_block_ignores_count (a : fcn_args) (n : Z) :
  fcn_nb_layers_per_block a = LInt n ->
  check_layers_per_block a
  = if fcn_nb_dense_block a <? 1
    then Raise (ValueError "Number of dense layers per block must be greater than 1. Argument value was %d.")
    else Ok tt.
Proof.
  intros H. unfold check_layers_per_block. rewrite H. simpl.
  destruct (fcn_nb_dense_block a <? 1); reflexivity.
Qed.


(** * Further properties of the helpers and the assemblers *)

(** ** Loops *)

(** A loop whose passes keep an invariant and fail only in ways [E]
    allows ends in a state with the invariant or fails in such a way. *)
Lemma for_range_invariant {St} (P : Z -> St -> Prop) (E : exn -> Prop)
      (body : Z -> St -> result St) (n : nat) :
  forall (i : Z) (st : St),
    (forall j s, i <= j < i + Z.of_nat n -> P j s ->
                 match body j s with
                 | Ok s' => P (j + 1) s'
                 | Raise e => E e
                 end) ->
    P i st ->
    match for_range n i body st with
    | Ok s' => P (i + Z.of_nat n) s'
    | Raise e => E e
    end.
Proof.
  induction n as [| n IH]; intros i st Hbody HP.
  - simpl. now rewrite Z.add_0_r.
  - cbn [for_range].
    pose proof (Hbody i st ltac:(lia) HP) as H1.
    destruct (body i st) as [st1 | e]; cbn [Py.bind]; [| exact H1].
    replace (i + Z.of_nat (S n)) with ((i + 1) + Z.of_nat n) by lia.
    apply IH; [| exact H1].
    intros j s Hj. apply Hbody. lia.
Qed.

Lemma for_range_first_raise {St} (body : Z -> St -> result St) (n : nat)
      (i : Z) (st : St) (e : exn) :
  body i st = Raise e -> for_range (S n) i body st = Raise e.
Proof. intros H. cbn [for_range]. now rewrite H. Qed.

(** ** Dropout *)

Lemma dropout_falsy (dropout_rate : option float) (x : tensor) :
  truthy dropout_rate = false -> dropout dropout_rate x = x.
Proof.
  unfold dropout. destruct dropout_rate as [r |]; [| reflexivity].
  intros ->. reflexivity.
Qed.

Lemma dense_loop_dropout_falsy
      (fmt : data_format) (growth_rate : Z) (bottleneck : bool)
      (dropout_rate : option float) (weight_decay : float)
      (grow_nb_filters : bool) (n : nat) :
  truthy dropout_rate = false ->
  forall st,
    dense_loop fmt n growth_rate bottleneck dropout_rate weight_decay
               grow_nb_filters st
    = dense_loop fmt n growth_rate bottleneck None weight_decay
                 grow_nb_filters st.
Proof.
  intros Hd. induction n as [| n IH]; intros st; [reflexivity |].
  cbn [dense_loop]. rewrite IH. f_equal.
  unfold dense_step, __conv_block. rewrite !(dropout_falsy _ _ Hd).
  reflexivity.
Qed.

(** X1.  A dropout rate of [0.0] (or [-0.0]) is the same as none: the
    conv block, the transition block and the dense block build exactly
    the graph they build with [dropout_rate=None], with no [Dropout]
    layer. *)
Theorem zero_dropout_is_no_dropout
        (fmt : data_format) (ip : tensor) (nb_layers nb_filter growth_rate : Z)
        (bottleneck : bool) (dropout_rate : option float) (weight_decay : float)
        (compression : float) (dilation_rate : dilation)
        (pooling : option string) (kernel_size : Z * Z)
        (grow_nb_filters return_concat_list : bool) :
  truthy dropout_rate = false ->
  __conv_block fmt ip nb_filter bottleneck dropout_rate weight_decay
  = __conv_block fmt ip nb_filter bottleneck None weight_decay
  /\ __transition_block fmt ip nb_filter compression dropout_rate weight_decay
                        dilation_rate pooling kernel_size
     = __transition_block fmt ip nb_filter compression None weight_decay
                          dilation_rate pooling kernel_size
  /\ __dense_block fmt ip nb_layers nb_filter growth_rate bottleneck
                   dropout_rate weight_decay grow_nb_filters return_concat_list
     = __dense_block fmt ip nb_layers nb_filter growth_rate bottleneck None
                     weight_decay grow_nb_filters return_concat_list.
Proof.
  intros Hd. split; [| split].
  - unfold __conv_block. now rewrite !(dropout_falsy _ _ Hd).
  - unfold __transition_block.
    destruct (compress nb_filter compression); simpl; [| reflexivity].
    now rewrite (dropout_falsy _ _ Hd).
  - unfold __dense_block. now rewrite (dense_loop_dropout_falsy _ _ _ _ _ _ _ Hd).
Qed.

Lemma zero_dropout_is_no_dropout_witness :
  truthy (Some (-0)%float) = false
  /\ __conv_block channels_last (Input (32, 32, 3)) 12 true (Some (-0)%float)
                  wd_default
     = __conv_block channels_last (Input (32, 32, 3)) 12 true None wd_default.
Proof.
  assert (H : truthy (Some (-0)%float) = false) by reflexivity.
  split; [exact H |].
  exact (proj1 (zero_dropout_is_no_dropout
                  channels_last (Input (32, 32, 3)) 1 12 12 true
                  (Some (-0)%float) wd_default 1 (DilInt 1) None (1, 1)
                  true false H)).
Defined.

(** ** Dense blocks without layers *)

(** X2.  With [nb_layers <= 0] a dense block builds nothing: it returns
    its input tensor and its input filter count unchanged, and [x_list]
    holds the input alone. *)
Theorem dense_block_without_layers
        (fmt : data_format) (x : tensor) (nb_layers nb_filter growth_rate : Z)
        (bottleneck : bool) (dropout_rate : option float) (weight_decay : float)
        (grow_nb_filters return_concat_list : bool) :
  nb_layers <= 0 ->
  __dense_block fmt x nb_layers nb_filter growth_rate bottleneck dropout_rate
                weight_decay grow_nb_filters return_concat_list
  = (x, nb_filter, if return_concat_list then Some [x] else None).
Proof.
  intros Hn. unfold __dense_block, range_len.
  replace (Z.to_nat nb_layers) with 0%nat by lia. reflexivity.
Qed.

Lemma dense_block_without_layers_witness :
  0 <= 0
  /\ __dense_block channels_first (Input (3, 32, 32)) 0 16 12 false None
                   wd_default true true
     = (Input (3, 32, 32), 16, Some [Input (3, 32, 32)]).
Proof.
  split; [lia |].
  apply (dense_block_without_layers
           channels_first (Input (3, 32, 32)) 0 16 12 false None wd_default
           true true).
  lia.
Defined.

(** ** Channel counts and the filter bookkeeping *)

Lemma dense_block_filter_count_eq
      (fmt : data_format) (x : tensor) (nb_layers nb_filter growth_rate : Z)
      (bottleneck : bool) (dropout_rate : option float) (weight_decay : float)
      (grow_nb_filters return_concat_list : bool) :
  snd (fst (__dense_block fmt x nb_layers nb_filter growth_rate bottleneck
                          dropout_rate weight_decay grow_nb_filters
                          return_concat_list))
  = if grow_nb_filters then nb_filter + Z.max nb_layers 0 * growth_rate
    else nb_filter.
Proof.
  unfold __dense_block. cbn [fst snd].
  rewrite dense_loop_filters. cbn [ds_nb_filter]. unfold range_len.
  destruct grow_nb_filters; [| reflexivity].
  replace (Z.of_nat (Z.to_nat nb_layers)) with (Z.max nb_layers 0) by lia.
  reflexivity.
Qed.

Lemma channels_merge (fmt : data_format) (xs : list tensor) (axis : Z) :
  channels fmt (Merge xs axis) = sum_channels fmt xs.
Proof. induction xs as [| x xs IH]; [reflexivity |]. simpl in *. now rewrite IH. Qed.

Lemma channels_dropout (fmt : data_format) (dropout_rate : option float)
      (x : tensor) :
  channels fmt (dropout dropout_rate x) = channels fmt x.
Proof.
  unfold dropout. destruct dropout_rate as [r |]; [| reflexivity].
  destruct (truthy (Some r)); reflexivity.
Qed.

Lemma channels_conv_block (fmt fmt' : data_format) (ip : tensor) (nb_filter : Z)
      (bottleneck : bool) (dropout_rate : option float) (weight_decay : float) :
  channels fmt (__conv_block fmt' ip nb_filter bottleneck dropout_rate
                             weight_decay)
  = Some nb_filter.
Proof. unfold __conv_block. now rewrite channels_dropout. Qed.

Lemma sum_channels_snoc (fmt : data_format) (l : list tensor) (x : tensor)
      (a b : Z) :
  sum_channels fmt l = Some a -> channels fmt x = Some b ->
  sum_channels fmt (l ++ [x]) = Some (a + b).
Proof.
  revert a. induction l as [| y l IH]; intros a Ha Hb; simpl in *.
  - injection Ha as <-. rewrite Hb. f_equal. ring.
  - destruct (channels fmt y) as [cy |]; [| discriminate].
    destruct (sum_channels fmt l) as [cl |]; [| discriminate].
    injection Ha as <-. rewrite (IH cl eq_refl Hb). f_equal. ring.
Qed.

Lemma dense_loop_channels
      (fmt : data_format) (growth_rate : Z) (bottleneck : bool)
      (dropout_rate : option float) (weight_decay : float)
      (grow_nb_filters : bool) (n : nat) :
  forall (st : dense_state) (c : Z),
    sum_channels fmt (ds_x_list st) = Some c ->
    channels fmt (ds_x st) = Some c ->
    let st' := dense_loop fmt n growth_rate bottleneck dropout_rate weight_decay
                          grow_nb_filters st in
    sum_channels fmt (ds_x_list st') = Some (c + Z.of_nat n * growth_rate)
    /\ channels fmt (ds_x st') = Some (c + Z.of_nat n * growth_rate).
Proof.
  induction n as [| n IH]; intros st c Hl Hx.
  - simpl. rewrite Z.add_0_r. auto.
  - cbn [dense_loop].
    set (st1 := dense_step fmt growth_rate bottleneck dropout_rate weight_decay
                           grow_nb_filters st).
    assert (H1 : sum_channels fmt (ds_x_list st1) = Some (c + growth_rate)).
    { unfold st1, dense_step. cbn [ds_x_list].
      apply sum_channels_snoc; [exact Hl | apply channels_conv_block]. }
    assert (H2 : channels fmt (ds_x st1) = Some (c + growth_rate)).
    { unfold st1, dense_step. cbn [ds_x]. rewrite channels_merge.
      apply sum_channels_snoc; [exact Hl | apply channels_conv_block]. }
    destruct (IH st1 _ H1 H2) as [H3 H4].
    replace (c + Z.of_nat (S n) * growth_rate)
      with (c + growth_rate + Z.of_nat n * growth_rate) by lia.
    auto.
Qed.

(** X3.  A dense block adds [growth_rate] channels per conv block to its
    input: the tensor it returns has the channels of the input plus
    [max(nb_layers, 0) * growth_rate]; so when the block is entered with
    [nb_filter] equal to the channels of the input and
    [grow_nb_filters] set, the filter count it returns is the channel
    count of the tensor it returns. *)
Theorem dense_block_channels
        (fmt : data_format) (x : tensor) (nb_layers nb_filter growth_rate : Z)
        (bottleneck : bool) (dropout_rate : option float) (weight_decay : float)
        (grow_nb_filters return_concat_list : bool) (c : Z) :
  channels fmt x = Some c ->
  let r := __dense_block fmt x nb_layers nb_filter growth_rate bottleneck
                         dropout_rate weight_decay grow_nb_filters
                         return_concat_list in
  channels fmt (fst (fst r)) = Some (c + Z.max nb_layers 0 * growth_rate)
  /\ (grow_nb_filters = true -> nb_filter = c ->
      channels fmt (fst (fst r)) = Some (snd (fst r))).
Proof.
  intros Hc r.
  assert (H : channels fmt (fst (fst r))
              = Some (c + Z.max nb_layers 0 * growth_rate)).
  { unfold r, __dense_block. cbn [fst snd].
    destruct (dense_loop_channels fmt growth_rate bottleneck dropout_rate
                weight_decay grow_nb_filters (range_len nb_layers)
                (mk_dense_state x [x] nb_filter) c) as [_ H].
    - simpl. rewrite Hc. f_equal. ring.
    - exact Hc.
    - rewrite H. unfold range_len.
      replace (Z.of_nat (Z.to_nat nb_layers)) with (Z.max nb_layers 0) by lia.
      reflexivity. }
  split; [exact H |].
  intros -> ->. rewrite H. unfold r.
  rewrite dense_block_filter_count_eq. reflexivity.
Qed.

Lemma dense_block_channels_witness :
  channels channels_last (Input (32, 32, 3)) = Some 3
  /\ channels channels_last
       (fst (fst (__dense_block channels_last (Input (32, 32, 3)) 4 3 12 true
                                (Some 0.5%float) wd_default true false)))
     = Some 51.
Proof.
  assert (H : channels channels_last (Input (32, 32, 3)) = Some 3)
    by reflexivity.
  split; [exact H |].
  exact (proj1 (dense_block_channels
                  channels_last (Input (32, 32, 3)) 4 3 12 true (Some 0.5%float)
                  wd_default true false 3 H)).
Defined.

Lemma transition_block_channels
      (fmt : data_format) (ip : tensor) (nb_filter : Z) (compression : float)
      (dropout_rate : option float) (weight_decay : float)
      (dilation_rate : dilation) (pooling : option string) (kernel_size : Z * Z)
      (t : tensor) :
  __transition_block fmt ip nb_filter compression dropout_rate weight_decay
                     dilation_rate pooling kernel_size = Ok t ->
  exists filters,
    compress nb_filter compression = Ok filters
    /\ channels fmt t = Some filters.
Proof.
  unfold __transition_block. intros H.
  apply bind_ok_inv in H. destruct H as (filters & Hf & H).
  exists filters. split; [exact Hf |].
  destruct (str_is pooling "avg").
  - injection H as <-. simpl. now rewrite channels_dropout.
  - destruct (str_is pooling "max"); [discriminate |].
    injection H as <-. now rewrite channels_dropout.
Qed.

Lemma dense_net_step_channels
      (K : keras) (nb_layers : list Z) (growth_rate : Z) (bottleneck : bool)
      (compression : float) (dropout_rate : option float) (weight_decay : float)
      (transition_dilation_rate : dilation) (transition_pooling : option string)
      (transition_kernel_size : Z * Z) (block_idx : Z)
      (st st' : tensor * Z) :
  dense_net_step K nb_layers growth_rate bottleneck compression dropout_rate
                 weight_decay transition_dilation_rate transition_pooling
                 transition_kernel_size block_idx st = Ok st' ->
  channels (image_data_format K) (fst st') = Some (snd st').
Proof.
  unfold dense_net_step. destruct st as [x nb_filter]. intros H.
  apply bind_ok_inv in H. destruct H as (n & _ & H).
  destruct (__dense_block _ _ _ _ _ _ _ _ _ _) as [[xd nfd] cl] in H.
  apply bind_ok_inv in H. destruct H as (xt & Ht & H).
  apply bind_ok_inv in H. destruct H as (nf & Hnf & H).
  injection H as <-. cbn [fst snd].
  apply transition_block_channels in Ht. destruct Ht as (f & Hf & Hc).
  congruence.
Qed.

(** X4.  In [__create_dense_net] the running filter count is the channel
    count of the running tensor: in every state the loop over the dense
    blocks reaches from the initial convolution, [nb_filter] is the
    number of channels of [x], and the dense block built next hands on a
    tensor and a filter count that agree as well, so every transition
    block compresses the channels its input really has. *)
Theorem dense_net_filter_count_is_channel_count
        (K : keras) (nb_layers : list Z) (growth_rate : Z) (bottleneck : bool)
        (compression : float) (dropout_rate : option float)
        (weight_decay : float) (transition_dilation_rate : dilation)
        (transition_pooling : option string) (transition_kernel_size : Z * Z)
        (img_input : tensor) (nb_filter0 : Z) (k : nat)
        (x : tensor) (nb_filter : Z) :
  for_range k 0
    (dense_net_step K nb_layers growth_rate bottleneck compression dropout_rate
                    weight_decay transition_dilation_rate transition_pooling
                    transition_kernel_size)
    (Apply (Conv2D nb_filter0 (3, 3) (Some "he_uniform") None
                   (Some "initial_conv2D") (DilInt 1) weight_decay) img_input,
     nb_filter0)
  = Ok (x, nb_filter) ->
  channels (image_data_format K) x = Some nb_filter
  /\ forall n : Z,
       let r := __dense_block (image_data_format K) x n nb_filter growth_rate
                              bottleneck dropout_rate weight_decay true false in
       channels (image_data_format K) (fst (fst r)) = Some (snd (fst r)).
Proof.
  intros H.
  assert (Hc : channels (image_data_format K) x = Some nb_filter).
  { pose proof (for_range_invariant
                  (fun _ (s : tensor * Z) =>
                     channels (image_data_format K) (fst s) = Some (snd s))
                  (fun _ => True)
                  (dense_net_step K nb_layers growth_rate bottleneck compression
                     dropout_rate weight_decay transition_dilation_rate
                     transition_pooling transition_kernel_size)
                  k 0
                  (Apply (Conv2D nb_filter0 (3, 3) (Some "he_uniform") None
                                 (Some "initial_conv2D") (DilInt 1) weight_decay)
                         img_input, nb_filter0)) as Hinv.
    rewrite H in Hinv. apply Hinv; [| reflexivity].
    intros j s _ _.
    destruct (dense_net_step K nb_layers growth_rate bottleneck compression
                dropout_rate weight_decay transition_dilation_rate
                transition_pooling transition_kernel_size j s) as [s' |] eqn:E;
      [| exact I].
    now apply dense_net_step_channels in E. }
  split; [exact Hc |].
  intros n r.
  exact (proj2 (dense_block_channels (image_data_format K) x n nb_filter
                  growth_rate bottleneck dropout_rate weight_decay true false
                  nb_filter Hc) eq_refl eq_refl).
Qed.

Lemma dense_net_filter_count_is_channel_count_witness :
  exists x,
    for_range 2 0
      (dense_net_step keras_tf [2; 2; 2] 12 false (PrimFloat.sub 1 0.5) None
                      wd_default (DilInt 1) (Some "avg") (1, 1))
      (Apply (Conv2D 16 (3, 3) (Some "he_uniform") None (Some "initial_conv2D")
                     (DilInt 1) wd_default) (Input (32, 32, 3)), 16)
    = Ok (x, 22)
    /\ channels channels_last x = Some 22.
Proof.
  destruct (for_range 2 0
              (dense_net_step keras_tf [2; 2; 2] 12 false (PrimFloat.sub 1 0.5)
                              None wd_default (DilInt 1) (Some "avg") (1, 1))
              (Apply (Conv2D 16 (3, 3) (Some "he_uniform") None
                             (Some "initial_conv2D") (DilInt 1) wd_default)
                     (Input (32, 32, 3)), 16)) as [[x nf] | e] eqn:E.
  - assert (Hnf : nf = 22).
    { apply (f_equal (fun r => match r with Ok (_, n) => n | Raise _ => 0 end))
        in E.
      vm_compute in E. congruence. }
    subst nf. exists x. split; [reflexivity |].
    exact (proj1 (dense_net_filter_count_is_channel_count
                    keras_tf [2; 2; 2] 12 false (PrimFloat.sub 1 0.5) None
                    wd_default (DilInt 1) (Some "avg") (1, 1) (Input (32, 32, 3))
                    16 2 x 22 E)).
  - apply (f_equal is_ok) in E. vm_compute in E. discriminate.
Defined.

(** ** Layer counts given as a list *)


Lemma index_last {A} (l : list A) (b : A) : index (l ++ [b]) (-1) = Ok b.
Proof.
  unfold index. cbv zeta. rewrite length_app. simpl List.length.
  replace (-1 <? 0) with true by reflexivity.
  replace (-1 + Z.of_nat (List.length l + 1)) with (Z.of_nat (List.length l))
    by lia.
  assert (E0 : (Z.of_nat (List.length l) <? 0) = false)
    by (apply Z.ltb_ge; lia).
  assert (E1 : (Z.of_nat (List.length l + 1) <=? Z.of_nat (List.length l))
               = false) by (apply Z.leb_gt; lia).
  rewrite E0, E1. simpl. rewrite Nat2Z.id, nth_error_app2 by lia.
  now rewrite Nat.sub_diag.
Qed.

Lemma index_empty {A} (i : Z) :
  index (@nil A) i = Raise (IndexError "list index out of range").
Proof.
  unfold index. cbv zeta. simpl List.length. simpl Z.of_nat.
  destruct (i <? 0) eqn:E0.
  - rewrite Z.add_0_r, E0. reflexivity.
  - rewrite E0. destruct (0 <=? i) eqn:E1; [reflexivity |].
    apply Z.ltb_ge in E0. apply Z.leb_gt in E1. lia.
Qed.

(** X5.  When [nb_layers_per_block] is a list or a tuple, both
    assemblers take it only with [nb_dense_block + 1] entries: any other
    length fails the assertion, and the one empty sequence that passes
    it (with [nb_dense_block = -1]) fails with [IndexError] at
    [nb_layers[-1]]; every non-empty sequence of the right length is
    accepted. *)
Theorem layer_list_length_check
        (depth : option Z) (nb_dense_block : Z) (nb_layers_per_block : layers_arg)
        (bottleneck : bool) (l : list Z) :
  as_sequence nb_layers_per_block = Some l ->
  (Z.of_nat (List.length l) <> nb_dense_block + 1 ->
   dense_net_layers depth nb_dense_block nb_layers_per_block bottleneck
   = Raise (AssertionError "If list, nb_layer is used as provided. Note that list size must be (nb_dense_block + 1)")
   /\ fcn_layers nb_dense_block nb_layers_per_block
      = Raise (AssertionError "If list, nb_layer is used as provided. Note that list size must be (nb_dense_block + 1)"))
  /\ (l = [] -> nb_dense_block = -1 ->
      dense_net_layers depth nb_dense_block nb_layers_per_block bottleneck
      = Raise (IndexError "list index out of range")
      /\ fcn_layers nb_dense_block nb_layers_per_block
         = Raise (IndexError "list index out of range"))
  /\ (l <> [] -> Z.of_nat (List.length l) = nb_dense_block + 1 ->
      is_ok (dense_net_layers depth nb_dense_block nb_layers_per_block
                              bottleneck) = true
      /\ is_ok (fcn_layers nb_dense_block nb_layers_per_block) = true).
Proof.
  intros Hs. unfold dense_net_layers, fcn_layers. rewrite Hs.
  split; [| split].
  - intros Hlen. apply Z.eqb_neq in Hlen. rewrite Hlen. split; reflexivity.
  - intros -> ->. split; reflexivity.
  - intros Hne Hlen.
    destruct (exists_last Hne) as (l' & b & ->).
    apply Z.eqb_eq in Hlen. rewrite Hlen. simpl.
    rewrite index_last. split; reflexivity.
Qed.

Lemma layer_list_length_check_witness :
  dense_net_layers None 3 (LList [6; 12; 24]) false
  = Raise (AssertionError "If list, nb_layer is used as provided. Note that list size must be (nb_dense_block + 1)")
  /\ fcn_layers (-1) (LTuple []) = Raise (IndexError "list index out of range").
Proof.
  pose proof (layer_list_length_check None 3 (LList [6; 12; 24]) false
                [6; 12; 24] eq_refl) as (H1 & _ & _).
  pose proof (layer_list_length_check None (-1) (LTuple []) false [] eq_refl)
    as (_ & H2 & _).
  split.
  - apply H1. discriminate.
  - apply H2; reflexivity.
Defined.



(** X7.  The layer counts of [__create_fcn_dense_net] mirror around the
    bottleneck: the list has [2 * nb_dense_block + 1] entries, it reads
    the same in both directions, its middle entry is the layer count of
    the bottleneck block, and a list given by the caller is its first
    half, so the up path uses the counts of the down path in reverse. *)
Theorem fcn_layers_mirror
        (nb_dense_block : Z) (nb_layers_per_block : layers_arg)
        (nb_layers : list Z) (bottleneck_nb_layers : Z) :
  fcn_layers nb_dense_block nb_layers_per_block
  = Ok (nb_layers, bottleneck_nb_layers) ->
  List.length nb_layers = Z.to_nat (2 * nb_dense_block + 1)
  /\ rev nb_layers = nb_layers
  /\ (0 <= nb_dense_block ->
      nth_error nb_layers (Z.to_nat nb_dense_block) = Some bottleneck_nb_layers)
  /\ (forall l, as_sequence nb_layers_per_block = Some l ->
                0 <= nb_dense_block
                /\ firstn (List.length l) nb_layers = l).
Proof.
  unfold fcn_layers. intros H.
  destruct (as_sequence nb_layers_per_block) as [l |] eqn:Hs.
  - apply bind_ok_inv in H. destruct H as ([] & Hlen & H).
    apply bind_ok_inv in H. destruct H as (b & Hb & H).
    injection H as <- <-.
    unfold assert in Hlen.
    destruct (Z.of_nat (List.length l) =? nb_dense_block + 1) eqn:E;
      [| discriminate].
    apply Z.eqb_eq in E.
    destruct l as [| a l0]; [rewrite index_empty in Hb; discriminate |].
    destruct (@exists_last _ (a :: l0)) as (l' & c & Hl); [discriminate |].
    rewrite Hl in *. clear Hl a l0.
    rewrite index_last in Hb. injection Hb as ->.
    rewrite length_app in E. cbn [List.length] in E.
    rewrite rev_app_distr. cbn [rev app tl].
    split; [| split; [| split]].
    + rewrite !length_app, length_rev. cbn [List.length]. lia.
    + rewrite rev_app_distr, rev_involutive, rev_app_distr. simpl.
      now rewrite <- app_assoc.
    + intros _. replace (Z.to_nat nb_dense_block) with (List.length l') by lia.
      rewrite nth_error_app1 by (rewrite length_app; simpl; lia).
      rewrite nth_error_app2 by lia. now rewrite Nat.sub_diag.
    + intros l Hl. injection Hl as <-. split; [lia |].
      rewrite firstn_app, firstn_all, Nat.sub_diag. simpl.
      now rewrite app_nil_r.
  - destruct nb_layers_per_block as [n | l | l]; try discriminate.
    injection H as <- <-.
    split; [apply repeat_length |]. split; [apply rev_repeat |].
    split; [| intros l Hl; discriminate].
    intros Hn. apply nth_error_repeat.
    change (Z.to_nat nb_dense_block < Z.to_nat (2 * nb_dense_block + 1))%nat.
    lia.
Qed.

Lemma fcn_layers_mirror_witness :
  fcn_layers 3 (LList [4; 5; 7; 10]) = Ok ([4; 5; 7; 10; 7; 5; 4], 10)
  /\ rev [4; 5; 7; 10; 7; 5; 4] = [4; 5; 7; 10; 7; 5; 4].
Proof.
  assert (H : fcn_layers 3 (LList [4; 5; 7; 10])
              = Ok ([4; 5; 7; 10; 7; 5; 4], 10)) by reflexivity.
  split; [exact H |].
  exact (proj1 (proj2 (fcn_layers_mirror 3 (LList [4; 5; 7; 10])
                         [4; 5; 7; 10; 7; 5; 4] 10 H))).
Defined.

(** ** The loops of the fully convolutional network *)












(** ** Pooling and the top of the classification network *)

Lemma dense_net_step_max_pooling
      (K : keras) (nb_layers : list Z) (growth_rate : Z) (bottleneck : bool)
      (compression : float) (dropout_rate : option float) (weight_decay : float)
      (transition_dilation_rate : dilation) (transition_kernel_size : Z * Z)
      (block_idx : Z) (st : tensor * Z) :
  is_ok (dense_net_step K nb_layers growth_rate bottleneck compression
                        dropout_rate weight_decay transition_dilation_rate
                        (Some "max") transition_kernel_size block_idx st)
  = false.
Proof.
  unfold dense_net_step. destruct st as [x nb_filter].
  destruct (index nb_layers block_idx) as [n |]; cbn [Py.bind]; [| reflexivity].
  destruct (__dense_block _ _ _ _ _ _ _ _ _ _) as [[xd nfd] cl].
  pose proof (transition_block_cases (image_data_format K) xd nfd compression
                dropout_rate weight_decay transition_dilation_rate (Some "max")
                transition_kernel_size) as Hc.
  change (str_is (Some "max") "avg") with false in Hc.
  change (str_is (Some "max") "max") with true in Hc.
  destruct (compress nfd compression); rewrite Hc; reflexivity.
Qed.

(** X10.  The documented option [transition_pooling="max"] cannot be
    used with two or more dense blocks: [__create_dense_net] then builds
    a transition block and never returns a tensor, and [DenseNet] returns
    no model and fetches nothing.  With at most one dense block no
    transition block is built and the pooling argument has no effect at
    all. *)
Theorem max_pooling_needs_a_single_block
        (K : keras) (nb_classes : Z) (img_input : tensor) (include_top : bool)
        (top : option string) (depth : option Z)
        (nb_dense_block growth_rate nb_filter : Z)
        (nb_layers_per_block : layers_arg) (bottleneck : bool)
        (reduction : float) (dropout_rate : option float) (weight_decay : float)
        (transition_dilation_rate : dilation) (transition_kernel_size : Z * Z)
        (input_shape : shape3) (activation : string) :
  let net pooling :=
    __create_dense_net K nb_classes img_input include_top top depth
      nb_dense_block growth_rate nb_filter nb_layers_per_block bottleneck
      reduction dropout_rate weight_decay transition_dilation_rate pooling
      transition_kernel_size input_shape activation in
  (2 <= nb_dense_block -> is_ok (net (Some "max")) = false)
  /\ (nb_dense_block <= 1 -> forall p p', net p = net p')
  /\ (forall a : densenet_args,
         2 <= dn_nb_dense_block a -> dn_transition_pooling a = Some "max" ->
         is_ok (snd (DenseNet K a)) = false /\ fst (DenseNet K a) = []).
Proof.
  intros net.
  assert (Hmax : forall c i h t d n g f l b r dr w tdr tks s act,
             2 <= n ->
             is_ok (__create_dense_net K c i h t d n g f l b r dr w tdr
                                       (Some "max") tks s act) = false).
  { intros c i h t d n g f l b r dr w tdr tks s act Hn.
    unfold __create_dense_net.
    destruct (check_depth d l); cbn [Py.bind]; [| reflexivity].
    destruct (check_reduction r); cbn [Py.bind]; [| reflexivity].
    destruct (dense_net_layers d n l b) as [[ls fin] |]; cbn [Py.bind];
      [| reflexivity].
    unfold range_len.
    destruct (Z.to_nat (n - 1)) as [| m] eqn:Em; [lia |].
    cbn [for_range].
    match goal with
    | |- context [dense_net_step ?K ?a ?b ?c ?d ?e ?f ?g (Some "max") ?h ?i ?j] =>
        pose proof (dense_net_step_max_pooling K a b c d e f g h i j) as Hs;
        destruct (dense_net_step K a b c d e f g (Some "max") h i j)
    end; [discriminate | reflexivity]. }
  split; [| split].
  - intros Hn. apply Hmax. exact Hn.
  - intros Hn p p'. unfold net, __create_dense_net, range_len.
    replace (Z.to_nat (nb_dense_block - 1)) with 0%nat by lia.
    reflexivity.
  - intros a Hn Hp. unfold DenseNet, DenseNet_build.
    destruct (DenseNet_validate a); cbn [Py.bind]; [| auto].
    destruct (_obtain_input_shape K _ _ _ _ _) as [s |]; cbn [Py.bind];
      [| auto].
    rewrite Hp.
    match goal with
    | |- context [__create_dense_net ?K ?c ?i ?h ?t ?d ?n ?g ?f ?l ?b ?r ?dr ?w
                                     ?tdr (Some "max") ?tks ?s ?act] =>
        pose proof (Hmax c i h t d n g f l b r dr w tdr tks s act Hn) as Hm;
        destruct (__create_dense_net K c i h t d n g f l b r dr w tdr
                                     (Some "max") tks s act)
    end; [discriminate | auto].
Qed.

Lemma max_pooling_needs_a_single_block_witness :
  is_ok (__create_dense_net keras_tf 10 (Input (32, 32, 3)) true
           (Some "classification") (Some 40) 3 12 16 (LInt (-1)) false 0 None
           wd_default (DilInt 1) (Some "max") (1, 1) (32, 32, 3) "softmax")
  = false.
Proof.
  apply (max_pooling_needs_a_single_block
           keras_tf 10 (Input (32, 32, 3)) true (Some "classification")
           (Some 40) 3 12 16 (LInt (-1)) false 0 None wd_default (DilInt 1)
           (1, 1) (32, 32, 3) "softmax").
  lia.
Defined.



(** ** Argument validation of the two entry points *)

Lemma DenseNet_validate_ok (a : densenet_args) :
  DenseNet_validate a = Ok tt ->
  (dn_weights a = None \/ dn_weights a = Some "cifar10")
  /\ (dn_weights a = Some "cifar10" -> dn_include_top a = true ->
      dn_classes a = 10)
  /\ (dn_activation a = "softmax"
      \/ (dn_activation a = "sigmoid" /\ dn_classes a = 1)).
Proof.
  unfold DenseNet_validate.
  destruct (dn_weights a) as [w |]; simpl.
  - destruct (String.eqb w "cifar10") eqn:Ew; simpl; [| discriminate].
    apply String.eqb_eq in Ew. subst w.
    destruct (dn_include_top a); simpl.
    + destruct (dn_classes a =? 10) eqn:Ec; simpl; [| discriminate].
      apply Z.eqb_eq in Ec.
      destruct (String.eqb (dn_activation a) "softmax") eqn:Es; simpl.
      * apply String.eqb_eq in Es. rewrite Es. simpl. auto.
      * destruct (String.eqb (dn_activation a) "sigmoid") eqn:Eg; simpl;
          [| discriminate].
        rewrite Ec. simpl. discriminate.
    + destruct (String.eqb (dn_activation a) "softmax") eqn:Es; simpl.
      * apply String.eqb_eq in Es. rewrite Es. simpl.
        intros _. repeat split; auto. discriminate.
      * destruct (String.eqb (dn_activation a) "sigmoid") eqn:Eg; simpl;
          [| discriminate].
        destruct (dn_classes a =? 1) eqn:E1; simpl; [| discriminate].
        apply String.eqb_eq in Eg. apply Z.eqb_eq in E1.
        intros _. repeat split; auto. discriminate.
  - destruct (String.eqb (dn_activation a) "softmax") eqn:Es; simpl.
    + apply String.eqb_eq in Es. rewrite Es. simpl.
      intros _. repeat split; auto. discriminate.
    + destruct (String.eqb (dn_activation a) "sigmoid") eqn:Eg; simpl;
        [| discriminate].
      destruct (dn_classes a =? 1) eqn:E1; simpl; [| discriminate].
      apply String.eqb_eq in Eg. apply Z.eqb_eq in E1.
      intros _. repeat split; auto. discriminate.
Qed.

Lemma DenseNet_validate_raises (a : densenet_args) (e : exn) :
  DenseNet_validate a = Raise e -> exists msg, e = ValueError msg.
Proof.
  unfold DenseNet_validate.
  repeat match goal with
         | |- context [if ?c then _ else _] => destruct c
         end; intros H; try discriminate; injection H as <-; eauto.
Qed.

(** X12.  [DenseNet] returns a model only for arguments that pass its
    checks: [weights] is None or 'cifar10'; with 'cifar10' and
    [include_top] there are 10 classes; the activation is 'softmax', or
    'sigmoid' with a single class.  Arguments that fail a check raise
    [ValueError] before the framework is asked for anything: the result
    is the same for every framework configuration and nothing is
    fetched. *)
Theorem DenseNet_argument_checks (K : keras) (a : densenet_args) :
  (is_ok (snd (DenseNet K a)) = true ->
   (dn_weights a = None \/ dn_weights a = Some "cifar10")
   /\ (dn_weights a = Some "cifar10" -> dn_include_top a = true ->
       dn_classes a = 10)
   /\ (dn_activation a = "softmax"
       \/ (dn_activation a = "sigmoid" /\ dn_classes a = 1)))
  /\ (forall e, DenseNet_validate a = Raise e ->
                DenseNet K a = ([], Raise e) /\ exists msg, e = ValueError msg).
Proof.
  split.
  - intros Hok. apply DenseNet_validate_ok.
    unfold DenseNet, DenseNet_build in Hok.
    destruct (DenseNet_validate a) as [[] | e]; [reflexivity | discriminate].
  - intros e He. split; [| now apply DenseNet_validate_raises in He].
    unfold DenseNet, DenseNet_build. rewrite He. reflexivity.
Qed.

Lemma DenseNet_argument_checks_witness :
  is_ok (snd (DenseNet keras_th densenet_defaults)) = true
  /\ dn_classes densenet_defaults = 10.
Proof.
  assert (Hok : is_ok (snd (DenseNet keras_th densenet_defaults)) = true)
    by (vm_compute; reflexivity).
  split; [exact Hok |].
  destruct (proj1 (DenseNet_argument_checks keras_th densenet_defaults) Hok)
    as (_ & Hc & _).
  apply Hc; reflexivity.
Defined.

Lemma check_layers_per_block_ok (a : fcn_args) :
  check_layers_per_block a = Ok tt ->
  match fcn_nb_layers_per_block a with
  | LList _ => True
  | _ => 1 <= fcn_nb_dense_block a
  end.
Proof.
  unfold check_layers_per_block.
  destruct (fcn_nb_layers_per_block a) as [n | l | l]; simpl;
    try (intros _; exact I);
    destruct (fcn_nb_dense_block a <? 1) eqn:En; intros H;
    try (apply Z.ltb_ge in En; lia).
  - discriminate.
  - destruct l as [| x [| y l']]; discriminate.
Qed.

(** X13.  The validation of [DenseNetFCN] passes only when [weights] is
    None, an input shape is given, the upsampling type is, whatever its
    letter case, one of 'upsampling', 'deconv' and 'subpixel', a batch
    size comes with 'deconv', the activation is 'softmax' or 'sigmoid'
    with a single class, and [nb_dense_block >= 1] unless
    [nb_layers_per_block] is a list; the type it hands on is the
    lower-cased one. *)
Theorem DenseNetFCN_validation_conditions (a : fcn_args) (t : string) :
  DenseNetFCN_validate a = Ok t ->
  t = lower (fcn_upsampling_type a)
  /\ (t = "upsampling" \/ t = "deconv" \/ t = "subpixel")
  /\ fcn_weights a = None
  /\ fcn_input_shape a <> None
  /\ (t = "deconv" -> fcn_batchsize a <> None)
  /\ (fcn_activation a = "softmax"
      \/ (fcn_activation a = "sigmoid" /\ fcn_classes a = 1))
  /\ match fcn_nb_layers_per_block a with
     | LList _ => True
     | _ => 1 <= fcn_nb_dense_block a
     end.
Proof.
  unfold DenseNetFCN_validate. intros H.
  destruct (fcn_weights a); [discriminate |].
  set (u := lower (fcn_upsampling_type a)) in *.
  destruct (String.eqb u "upsampling" || String.eqb u "deconv"
            || String.eqb u "subpixel") eqn:Eu; simpl in H; [| discriminate].
  destruct (String.eqb u "deconv"
            && match fcn_batchsize a with
               | Some _ => false
               | None => true
               end) eqn:Ed; [discriminate |].
  destruct (fcn_input_shape a) as [s |]; [| discriminate].
  apply bind_ok_inv in H. destruct H as ([] & Hl & H).
  destruct (String.eqb (fcn_activation a) "softmax"
            || String.eqb (fcn_activation a) "sigmoid") eqn:Ea; simpl in H;
    [| discriminate].
  destruct (String.eqb (fcn_activation a) "sigmoid"
            && negb (fcn_classes a =? 1)) eqn:Es; [discriminate |].
  injection H as <-.
  split; [reflexivity |]. split.
  { rewrite !orb_true_iff, !String.eqb_eq in Eu. tauto. }
  split; [reflexivity |]. split; [discriminate |]. split.
  { intros Hu. rewrite Hu in Ed. simpl in Ed.
    destruct (fcn_batchsize a); [discriminate | discriminate]. }
  split; [| now apply check_layers_per_block_ok].
  rewrite orb_true_iff, !String.eqb_eq in Ea.
  destruct Ea as [Ea | Ea]; [left; exact Ea |].
  right. split; [exact Ea |].
  rewrite <- (String.eqb_eq (fcn_activation a)) in Ea. rewrite Ea in Es.
  simpl in Es. apply negb_false_iff in Es. now apply Z.eqb_eq in Es.
Qed.

Lemma DenseNetFCN_validation_conditions_witness :
  DenseNetFCN_validate
    {| fcn_input_shape := Some (64, 64, 3);
       fcn_nb_dense_block := 5;
       fcn_growth_rate := 16;
       fcn_nb_layers_per_block := LInt 4;
       fcn_reduction := 0;
       fcn_dropout_rate := Some 0%float;
       fcn_weight_decay := wd_default;
       fcn_init_conv_filters := 48;
       fcn_include_top := true;
       fcn_top := Some "segmentation";
       fcn_weights := None;
       fcn_input_tensor := None;
       fcn_classes := 1;
       fcn_activation := "sigmoid";
       fcn_upsampling_conv := 128;
       fcn_upsampling_type := "DeConv";
       fcn_batchsize := Some 8;
       fcn_transition_dilation_rate := DilInt 1;
       fcn_transition_pooling := Some "avg";
       fcn_transition_kernel_size := (1, 1) |}
  = Ok "deconv"
  /\ "deconv" = lower "DeConv".
Proof.
  match goal with
  | |- ?v = Ok "deconv" /\ _ => assert (H : v = Ok "deconv") by reflexivity
  end.
  split; [exact H |].
  exact (proj1 (DenseNetFCN_validation_conditions _ _ H)).
Defined.

(** X14.  No call of [DenseNetFCN] returns a model.  Whatever the
    framework and the arguments the call raises, and when the validation
    and [_obtain_input_shape] have passed what it raises is the
    [TypeError] of calling [__create_fcn_dense_net], which has 18
    parameters, with 19 positional arguments. *)
Theorem DenseNetFCN_always_raises (K : keras) (a : fcn_args) :
  exists e,
    DenseNetFCN K a = Raise e
    /\ (is_ok (DenseNetFCN_validate a) = true ->
        is_ok (_obtain_input_shape K (fcn_input_shape a) 32 16
                                   (image_data_format K) false) = true ->
        e = TypeError "too many positional arguments").
Proof.
  unfold DenseNetFCN.
  destruct (DenseNetFCN_validate a) as [t | e]; cbn [Py.bind].
  - destruct (_obtain_input_shape K _ _ _ _ _) as [s | e]; cbn [Py.bind].
    + rewrite DenseNetFCN_call_arity. cbn [Py.bind]. eauto.
    + exists e. split; [reflexivity | discriminate].
  - exists e. split; [reflexivity | discriminate].
Qed.

Lemma DenseNetFCN_always_raises_witness :
  DenseNetFCN keras_th (fcn_defaults (3, 64, 64) (LList [4; 5; 7; 10; 12; 15])
                                     false)
  = Raise (TypeError "too many positional arguments").
Proof.
  destruct (DenseNetFCN_always_raises
              keras_th (fcn_defaults (3, 64, 64) (LList [4; 5; 7; 10; 12; 15])
                                     false)) as (e & He & Hty).
  rewrite He. f_equal. apply Hty; reflexivity.
Defined.

(** ** The weight files *)

(** X15.  When [DenseNet] loads pretrained weights, the file it fetches
    is the one for the configured data format and for [include_top]
    (the Theano-ordering files for 'channels_first', the no-top files
    without the top), the file it loads is the file it fetched, and the
    kernels of the model are converted exactly when the backend is not
    the one the data format belongs to (TensorFlow with
    'channels_first', Theano with 'channels_last'). *)
Theorem pretrained_file_choice (K : keras) (a : densenet_args) :
  is_ok (snd (DenseNet K a)) = true ->
  str_is (dn_weights a) "cifar10" && default_parameters_match a = true ->
  exists fname rest,
    fst (DenseNet K a)
    = GetFile fname
              (match image_data_format K, dn_include_top a with
               | channels_first, true => TH_WEIGHTS_PATH
               | channels_first, false => TH_WEIGHTS_PATH_NO_TOP
               | channels_last, true => TF_WEIGHTS_PATH
               | channels_last, false => TF_WEIGHTS_PATH_NO_TOP
               end) "models"
      :: LoadWeights fname :: rest
    /\ (In ConvertAllKernels rest <->
        match image_data_format K, backend K with
        | channels_first, tensorflow | channels_last, theano => True
        | _, _ => False
        end)
    /\ (forall e, In e rest -> is_get_file e = false /\ is_load_weights e = false).
Proof.
  intros Hok Hw. apply andb_true_iff in Hw. destruct Hw as [Hw Hm].
  unfold DenseNet in *.
  destruct (DenseNet_build K a) as [m | e0]; [| discriminate].
  cbn [fst]. unfold DenseNet_load_weights. rewrite Hw, Hm.
  destruct (image_data_format K), (dn_include_top a), (backend K);
    cbn [app]; do 2 eexists; (split; [reflexivity |]);
    (split; [simpl; intuition (discriminate || auto) |]);
    intros ev Hev; simpl in Hev;
    repeat (destruct Hev as [<- | Hev]; [split; reflexivity |]);
    contradiction.
Qed.

Lemma pretrained_file_choice_witness :
  exists fname rest,
    fst (DenseNet keras_tf densenet_defaults)
    = GetFile fname TF_WEIGHTS_PATH "models" :: LoadWeights fname :: rest
    /\ ~ In ConvertAllKernels rest.
Proof.
  destruct (pretrained_file_choice keras_tf densenet_defaults)
    as (fname & rest & He & Hc & _).
  - vm_compute. reflexivity.
  - vm_compute. reflexivity.
  - exists fname, rest. split; [exact He |].
    intros Hin. apply Hc in Hin. exact Hin.
Defined.

(** ** Parameters that change nothing *)

(** X16.  [__create_fcn_dense_net] makes no use of [nb_classes],
    [activation], [transition_dilation_rate], [transition_pooling] and
    [transition_kernel_size], and of [nb_upsampling_conv] only its
    assertion: two calls that differ in these arguments alone, each with
    an accepted [nb_upsampling_conv], give the same result.  (The
    transition blocks of the down path are built with their default
    pooling, dilation and kernel size.) *)
Theorem fcn_ignored_parameters
        (K : keras) (nb_classes nb_classes' : Z) (img_input : tensor)
        (include_top : bool) (nb_dense_block growth_rate : Z) (reduction : float)
        (dropout_rate : option float) (weight_decay : float)
        (nb_layers_per_block : layers_arg)
        (nb_upsampling_conv nb_upsampling_conv' : Z) (upsampling_type : string)
        (batchsize : option Z) (init_conv_filters : Z)
        (transition_dilation_rate transition_dilation_rate' : dilation)
        (transition_pooling transition_pooling' : option string)
        (transition_kernel_size transition_kernel_size' : Z * Z)
        (activation activation' : string) (input_shape : shape3) :
  12 <= nb_upsampling_conv -> nb_upsampling_conv mod 4 = 0 ->
  12 <= nb_upsampling_conv' -> nb_upsampling_conv' mod 4 = 0 ->
  __create_fcn_dense_net K nb_classes img_input include_top nb_dense_block
    growth_rate reduction dropout_rate weight_decay nb_layers_per_block
    nb_upsampling_conv upsampling_type batchsize init_conv_filters
    transition_dilation_rate transition_pooling transition_kernel_size
    activation input_shape
  = __create_fcn_dense_net K nb_classes' img_input include_top nb_dense_block
      growth_rate reduction dropout_rate weight_decay nb_layers_per_block
      nb_upsampling_conv' upsampling_type batchsize init_conv_filters
      transition_dilation_rate' transition_pooling' transition_kernel_size'
      activation' input_shape.
Proof.
  intros H1 H2 H3 H4. unfold __create_fcn_dense_net, fcn_prologue.
  apply Z.leb_le in H1, H3. apply Z.eqb_eq in H2, H4.
  now rewrite H1, H2, H3, H4.
Qed.

Lemma fcn_ignored_parameters_witness :
  __create_fcn_dense_net keras_tf 1 (Input (32, 32, 3)) false 2 16 0 None
    wd_default (LInt 1) 128 "upsampling" None 48 (DilInt 1) (Some "avg") (1, 1)
    "softmax" (32, 32, 3)
  = __create_fcn_dense_net keras_tf 21 (Input (32, 32, 3)) false 2 16 0 None
      wd_default (LInt 1) 12 "upsampling" None 48 (DilPair 2 2) (Some "max")
      (3, 3) "sigmoid" (32, 32, 3).
Proof.
  apply (fcn_ignored_parameters
           keras_tf 1 21 (Input (32, 32, 3)) false 2 16 0 None wd_default
           (LInt 1) 128 12 "upsampling" None 48 (DilInt 1) (DilPair 2 2)
           (Some "avg") (Some "max") (1, 1) (3, 3) "softmax" "sigmoid"
           (32, 32, 3)); (lia || reflexivity).
Defined.

(** X17.  Every [nb_filter <= 0], not only the documented -1, stands for
    [2 * growth_rate]: [__create_dense_net] gives the result it gives
    when called with [nb_filter = 2 * growth_rate]. *)
Theorem nonpositive_nb_filter_is_twice_growth_rate
        (K : keras) (nb_classes : Z) (img_input : tensor) (include_top : bool)
        (top : option string) (depth : option Z)
        (nb_dense_block growth_rate nb_filter : Z)
        (nb_layers_per_block : layers_arg) (bottleneck : bool)
        (reduction : float) (dropout_rate : option float) (weight_decay : float)
        (transition_dilation_rate : dilation) (transition_pooling : option string)
        (transition_kernel_size : Z * Z) (input_shape : shape3)
        (activation : string) :
  nb_filter <= 0 ->
  __create_dense_net K nb_classes img_input include_top top depth nb_dense_block
    growth_rate nb_filter nb_layers_per_block bottleneck reduction dropout_rate
    weight_decay transition_dilation_rate transition_pooling
    transition_kernel_size input_shape activation
  = __create_dense_net K nb_classes img_input include_top top depth
      nb_dense_block growth_rate (2 * growth_rate) nb_layers_per_block
      bottleneck reduction dropout_rate weight_decay transition_dilation_rate
      transition_pooling transition_kernel_size input_shape activation.
Proof.
  intros Hn. unfold __create_dense_net.
  apply Z.leb_le in Hn. rewrite Hn.
  destruct (2 * growth_rate <=? 0); reflexivity.
Qed.

Lemma nonpositive_nb_filter_is_twice_growth_rate_witness :
  __create_dense_net keras_tf 10 (Input (32, 32, 3)) true (Some "classification")
    (Some 7) 2 12 0 (LInt (-1)) false 0 None wd_default (DilInt 1) (Some "avg")
    (1, 1) (32, 32, 3) "softmax"
  = __create_dense_net keras_tf 10 (Input (32, 32, 3)) true
      (Some "classification") (Some 7) 2 12 (2 * 12) (LInt (-1)) false 0 None
      wd_default (DilInt 1) (Some "avg") (1, 1) (32, 32, 3) "softmax".
Proof.
  apply (nonpositive_nb_filter_is_twice_growth_rate
           keras_tf 10 (Input (32, 32, 3)) true (Some "classification") (Some 7)
           2 12 0 (LInt (-1)) false 0 None wd_default (DilInt 1) (Some "avg")
           (1, 1) (32, 32, 3) "softmax").
  lia.
Defined.

(** ** Channels on the up path *)

Lemma dense_loop_tail_channels
      (fmt : data_format) (growth_rate : Z) (bottleneck : bool)
      (dropout_rate : option float) (weight_decay : float)
      (grow_nb_filters : bool) (n : nat) :
  forall (st : dense_state) (h : tensor) (t : list tensor) (c : Z),
    ds_x_list st = h :: t ->
    sum_channels fmt t = Some c ->
    exists t',
      ds_x_list (dense_loop fmt n growth_rate bottleneck dropout_rate
                            weight_decay grow_nb_filters st) = h :: t'
      /\ sum_channels fmt t' = Some (c + Z.of_nat n * growth_rate).
Proof.
  induction n as [| n IH]; intros st h t c Hl Hc.
  - exists t. simpl. rewrite Z.add_0_r. auto.
  - cbn [dense_loop].
    destruct (IH (dense_step fmt growth_rate bottleneck dropout_rate
                             weight_decay grow_nb_filters st)
                 h (t ++ [__conv_block fmt (ds_x st) growth_rate bottleneck
                                       dropout_rate weight_decay])
                 (c + growth_rate)) as (t' & H1 & H2).
    + unfold dense_step. cbn [ds_x_list]. rewrite Hl. reflexivity.
    + apply sum_channels_snoc; [exact Hc | apply channels_conv_block].
    + exists t'. split; [exact H1 |]. rewrite H2. apply f_equal.
      rewrite Nat2Z.inj_succ. ring.
Qed.

Lemma dense_block_concat_list_channels
      (fmt : data_format) (x : tensor) (nb_layers nb_filter growth_rate : Z)
      (bottleneck : bool) (dropout_rate : option float) (weight_decay : float)
      (grow_nb_filters : bool) :
  exists outs,
    snd (__dense_block fmt x nb_layers nb_filter growth_rate bottleneck
                       dropout_rate weight_decay grow_nb_filters true)
    = Some (x :: outs)
    /\ sum_channels fmt outs = Some (Z.max nb_layers 0 * growth_rate).
Proof.
  unfold __dense_block. cbn [snd].
  destruct (dense_loop_tail_channels fmt growth_rate bottleneck dropout_rate
              weight_decay grow_nb_filters (range_len nb_layers)
              (mk_dense_state x [x] nb_filter) x [] 0 eq_refl eq_refl)
    as (outs & H1 & H2).
  exists outs. rewrite H1. split; [reflexivity |]. rewrite H2.
  unfold range_len.
  replace (Z.of_nat (Z.to_nat nb_layers)) with (Z.max nb_layers 0) by lia.
  reflexivity.
Qed.

Lemma fcn_up_step_concat_list
      (K : keras) (nb_layers : list Z) (nb_dense_block growth_rate : Z)
      (dropout_rate : option float) (weight_decay : float)
      (upsampling_type : string) (skip_list : list tensor) (j : Z)
      (st st' : up_state) :
  fcn_up_step K nb_layers nb_dense_block growth_rate dropout_rate weight_decay
              upsampling_type skip_list j st = Ok st' ->
  exists n' outs,
    index nb_layers (nb_dense_block + j + 1) = Ok n'
    /\ up_concat_list st' = up_x st' :: outs
    /\ sum_channels (image_data_format K) outs
       = Some (Z.max n' 0 * growth_rate).
Proof.
  unfold fcn_up_step. intros H.
  apply bind_ok_inv in H. destruct H as (n & _ & H).
  apply bind_ok_inv in H. destruct H as (skip & _ & H).
  apply bind_ok_inv in H. destruct H as (n' & Hn' & H).
  match type of H with
  | context [__dense_block ?f ?x ?n ?nf ?g ?b ?d ?w ?gr true] =>
      destruct (dense_block_concat_list_channels f x n nf g b d w gr)
        as (outs & Ho & Hc);
      destruct (__dense_block f x n nf g b d w gr true) as [[u nf'] cl]
  end.
  cbn [snd] in Ho. subst cl. injection H as <-.
  exists n', outs. cbn [up_concat_list up_x]. auto.
Qed.

(** X18.  On the up path the filter count kept by an up-block is the
    channel count of what it upsamples: in pass [k] the block is given
    [concat_list[1:]], the outputs of the conv blocks of the dense block
    before it without that block's input, whose channels add up to
    [growth_rate * nb_layers[nb_dense_block + k]], the [n_filters_keep]
    of the pass (the layer counts being non-negative and the bottleneck
    count being the middle entry of the list). *)
Theorem up_block_keeps_channel_count
        (K : keras) (img_input : tensor) (nb_dense_block growth_rate : Z)
        (reduction : float) (dropout_rate : option float) (weight_decay : float)
        (nb_layers : list Z) (bottleneck_nb_layers : Z)
        (upsampling_type : string) (batchsize : option Z)
        (init_conv_filters : Z) (input_shape : shape3)
        (st0 st : up_state) (skip_list : list tensor) (k : nat) (n : Z) :
  index nb_layers nb_dense_block = Ok bottleneck_nb_layers ->
  fcn_down K img_input nb_dense_block growth_rate reduction dropout_rate
           weight_decay nb_layers bottleneck_nb_layers batchsize
           init_conv_filters input_shape
  = Ok (st0, skip_list) ->
  for_range k 0
    (fcn_up_step K nb_layers nb_dense_block growth_rate dropout_rate
                 weight_decay upsampling_type skip_list) st0
  = Ok st ->
  index nb_layers (nb_dense_block + Z.of_nat k) = Ok n ->
  0 <= n ->
  channels (image_data_format K)
           (Merge (tl (up_concat_list st)) (axis_of (image_data_format K)))
  = Some (growth_rate * n).
Proof.
  intros Hb Hdown Hloop Hn Hpos.
  rewrite channels_merge.
  pose proof (for_range_invariant
                (fun j (s : up_state) =>
                   forall m, index nb_layers (nb_dense_block + j) = Ok m ->
                             sum_channels (image_data_format K)
                                          (tl (up_concat_list s))
                             = Some (Z.max m 0 * growth_rate))
                (fun _ => True)
                (fcn_up_step K nb_layers nb_dense_block growth_rate dropout_rate
                             weight_decay upsampling_type skip_list)
                k 0 st0) as Hinv.
  rewrite Hloop in Hinv.
  assert (Hfinal : forall m,
             index nb_layers (nb_dense_block + (0 + Z.of_nat k)) = Ok m ->
             sum_channels (image_data_format K) (tl (up_concat_list st))
             = Some (Z.max m 0 * growth_rate));
    [apply Hinv |
     rewrite (Hfinal n Hn); apply f_equal;
     replace (Z.max n 0) with n by lia; ring].
  - (* a pass re-establishes the invariant *)
    intros j s _ _.
    destruct (fcn_up_step K nb_layers nb_dense_block growth_rate dropout_rate
                          weight_decay upsampling_type skip_list j s)
      as [s' |] eqn:E; [| exact I].
    apply fcn_up_step_concat_list in E.
    destruct E as (n' & outs & Hn' & Hl & Hc).
    intros m Hm.
    replace (nb_dense_block + (j + 1)) with (nb_dense_block + j + 1) in Hm
      by lia.
    rewrite Hl. cbn [tl]. congruence.
  - (* the bottleneck block establishes it *)
    intros m Hm. rewrite Z.add_0_r in Hm.
    assert (m = bottleneck_nb_layers) by congruence. subst m.
    unfold fcn_down in Hdown. destruct (rows_cols K input_shape) as [rows cols].
    apply bind_ok_inv in Hdown. destruct Hdown as (down & _ & Hdown).
    match type of Hdown with
    | context [__dense_block ?f ?x ?nl ?nf ?g ?b ?d ?w ?gr true] =>
        destruct (dense_block_concat_list_channels f x nl nf g b d w gr)
          as (outs & Ho & Hc);
        destruct (__dense_block f x nl nf g b d w gr true) as [[u nf'] cl]
    end.
    cbn [snd] in Ho. subst cl. injection Hdown as <- _.
    cbn [up_concat_list tl]. exact Hc.
Qed.

Lemma up_block_keeps_channel_count_witness :
  exists st0 skip_list st,
    fcn_down keras_tf (Input (32, 32, 3)) 2 16 0 None wd_default [1; 2; 3; 2; 1]
             3 None 48 (32, 32, 3)
    = Ok (st0, skip_list)
    /\ for_range 1 0
         (fcn_up_step keras_tf [1; 2; 3; 2; 1] 2 16 None wd_default "upsampling"
                      skip_list) st0
       = Ok st
    /\ channels channels_last (Merge (tl (up_concat_list st)) (-1))
       = Some (16 * 2).
Proof.
  destruct (fcn_body keras_tf (Input (32, 32, 3)) 2 16 0 None wd_default
                     [1; 2; 3; 2; 1] 3 "upsampling" None 48 (32, 32, 3))
    as [st_end | e] eqn:E.
  - apply fcn_body_up_passes in E.
    destruct E as (st0 & skip_list & Hd & Hk).
    destruct (Hk 1%nat) as (st & Hst); [vm_compute; lia |].
    exists st0, skip_list, st. split; [exact Hd |]. split; [exact Hst |].
    exact (up_block_keeps_channel_count
             keras_tf (Input (32, 32, 3)) 2 16 0 None wd_default [1; 2; 3; 2; 1]
             3 "upsampling" None 48 (32, 32, 3) st0 st skip_list 1 2
             eq_refl Hd Hst eq_refl ltac:(lia)).
  - apply (f_equal is_ok) in E. vm_compute in E. discriminate.
Defined.
